(** * pydantic-agent: the agent state store and its mock tools

    A shallow embedding of [src/models.py], [src/agent.py] (the store, the
    prompts and the processing turn of [PydanticAgent]) and [src/tools.py]
    ([web_search] and the tool descriptors), followed by the properties of
    the specification that can be settled on it and by further properties of
    the code.

    Python objects mutated in place ([self], [self.agent_model]) are threaded
    explicitly; exceptions are an outcome of a call, and the state reached when
    an exception leaves a call is kept, so that "nothing was modified" is a
    statement and not a convention. *)

From stdpp Require Import base option list strings gmap pretty relations.
From Stdlib Require Import ZArith Lia.

Local Open Scope string_scope.
Local Open Scope Z_scope.
Local Open Scope list_scope.

(** ** Python runtime: exceptions, outcomes, calls *)

(** One line of a pydantic [ValidationError]: the failed constraint. *)
Inductive ErrorKind :=
  | greater_than_equal (ge : Z)
  | less_than_equal (le : Z)
  | value_error (msg : string).

Inductive Exn :=
  | ValueError (msg : string)
  | ValidationError (model : string) (loc : list string) (kind : ErrorKind).

Inductive Outcome (A : Type) :=
  | Return (a : A)
  | Raise (e : Exn).
Arguments Return {A} a.
Arguments Raise {A} e.

(** A call running on a state [Σ]: it returns or raises, and leaves a state
    either way. *)
Definition Py (Σ A : Type) : Type := Σ → Outcome A * Σ.

Definition ret {Σ A} (a : A) : Py Σ A := λ σ, (Return a, σ).

Definition raise {Σ A} (e : Exn) : Py Σ A := λ σ, (Raise e, σ).

Definition bind {Σ A B} (c : Py Σ A) (k : A → Py Σ B) : Py Σ B :=
  λ σ, match c σ with
       | (Return a, σ') => k a σ'
       | (Raise e, σ') => (Raise e, σ')
       end.

Definition modify {Σ} (f : Σ → Σ) : Py Σ unit := λ σ, (Return tt, f σ).

(** [for x in xs: body(x)]. *)
Fixpoint for_each {Σ A B} (xs : list A) (body : A → Py Σ B) : Py Σ unit :=
  match xs with
  | [] => ret tt
  | x :: xs' => bind (body x) (λ _, for_each xs' body)
  end.

Global Instance Py_ret {Σ} : MRet (Py Σ) := λ A, ret.
Global Instance Py_bind {Σ} : MBind (Py Σ) := λ A B k c, bind c k.

(** Running a call written for a part [Τ] of the state on the whole state
    (attribute access [self.agent_model.m(...)], or a function that touches
    the world only). *)
Definition zoom {Σ Τ A} (proj : Σ → Τ) (inj : Τ → Σ → Σ) (c : Py Τ A) : Py Σ A :=
  λ σ, let '(o, τ) := c (proj σ) in (o, inj τ σ).

(** Truthiness of [str] and of [Optional[str]]. *)
Definition truthy (s : string) : bool := negb (String.eqb s "").

Definition truthy_opt (o : option string) : bool :=
  match o with Some s => truthy s | None => false end.

(** [a or b] on [Optional[str]]. *)
Definition py_or (a b : option string) : option string :=
  if truthy_opt a then a else b.

(** [range(n)] for an [int]: empty when [n <= 0]. *)
Definition range (n : Z) : list Z := Z.of_nat <$> seq 0 (Z.to_nat n).

(** [all(...)] over a generator. *)
Definition py_all {A} (p : A → bool) (xs : list A) : bool := forallb p xs.

(** [str(i)] of an [int]. *)
Definition str_of_int (i : Z) : string := pretty i.

(** [datetime] values, as an instant on some scale. *)
Definition datetime : Type := Z.

(** ** The world outside the objects: environment, uuid source, clock, log *)

Module World.

Record t := mk {
  environ : gmap string string;
  (** what [str(uuid.uuid4())] yields at its n-th call *)
  uuid4_values : nat → string;
  uuid4_calls : nat;
  (** what [datetime.now()] yields at its n-th call *)
  now_values : nat → datetime;
  now_calls : nat;
  (** the records handed to [logger.info], oldest first *)
  log_records : list string
}.

Definition getenv (key : string) : Py t (option string) :=
  λ w, (Return (environ w !! key), w).

Definition uuid4_str : Py t string :=
  λ w, (Return (uuid4_values w (uuid4_calls w)),
        mk (environ w) (uuid4_values w) (S (uuid4_calls w))
           (now_values w) (now_calls w) (log_records w)).

Definition now : Py t datetime :=
  λ w, (Return (now_values w (now_calls w)),
        mk (environ w) (uuid4_values w) (uuid4_calls w)
           (now_values w) (S (now_calls w)) (log_records w)).

Definition logger_info (record : string) : Py t unit :=
  λ w, (Return tt,
        mk (environ w) (uuid4_values w) (uuid4_calls w)
           (now_values w) (now_calls w) (log_records w ++ [record])).

End World.

(** A method call: the object it runs on, and the world. *)
Definition Meth (C A : Type) : Type := Py (C * World.t) A.

(** A world-only call made from inside a method. *)
Definition in_world {C A} (c : Py World.t A) : Meth C A :=
  zoom snd (λ w σ, (fst σ, w)) c.

Definition set_self {C} (f : C → C) : Meth C unit :=
  modify (λ σ, (f (fst σ), snd σ)).

(** ** src/models.py *)

Module Message.

Record t := mk {
  role : string;
  content : string;
  timestamp : datetime
}.

(** [Message(role=..., content=...)]: both fields are plain [str], the
    timestamp comes from [default_factory=datetime.now]. *)
Definition new (role content : string) : Py World.t t :=
  ts ← World.now;
  ret (mk role content ts).

End Message.

Module Memory.

Record t := mk {
  id : string;
  content : string;
  source : string;
  importance : Z;
  created_at : datetime;
  last_accessed : option datetime
}.

(** The [model_validator(mode='after')]; a [ValueError] raised by a validator
    reaches the caller as a [ValidationError]. *)
Definition validate_importance {Σ} (self : t) : Py Σ t :=
  if bool_decide (importance self < 1 ∨ importance self > 10)
  then raise (ValidationError "Memory" []
                (value_error "Importance must be between 1 and 10"))
  else ret self.

(** The constraints of [Field(default=1, ge=1, le=10)] on a supplied value
    (a default is not validated). *)
Definition check_importance_field {Σ} (importance : option Z) : Py Σ Z :=
  match importance with
  | None => ret 1
  | Some i =>
      if bool_decide (i < 1)
      then raise (ValidationError "Memory" ["importance"] (greater_than_equal 1))
      else if bool_decide (i > 10)
      then raise (ValidationError "Memory" ["importance"] (less_than_equal 10))
      else ret i
  end.

(** [Memory(id=..., content=..., source=..., importance=...)]. Every field
    is processed (so the clock is read for [created_at]) before the errors of
    the fields are raised; the after-validator runs on a model whose fields
    passed. *)
Definition new (id content source : string) (importance : option Z) : Py World.t t :=
  ts ← World.now;
  i ← check_importance_field importance;
  validate_importance (mk id content source i ts None).

End Memory.

Module AgentThought.

Record t := mk {
  content : string;
  timestamp : datetime
}.

Definition new (content : string) : Py World.t t :=
  ts ← World.now;
  ret (mk content ts).

End AgentThought.

(** Values of type [Any], and what a call hands back to its caller. *)
Inductive PyObject :=
  | PyNone
  | PyBool (b : bool)
  | PyInt (i : Z)
  | PyStr (s : string)
  | PyMessage (m : Message.t)
  | PyMemory (m : Memory.t)
  | PyAgentThought (t : AgentThought.t).

Module Tool.

Record t := mk {
  name : string;
  description : string;
  parameters : gmap string PyObject;
  required_parameters : list string
}.

(** [param in params] on a [dict]. *)
Definition contains (params : gmap string PyObject) (param : string) : bool :=
  bool_decide (is_Some (params !! param)).

Definition validate_parameters (self : t) (params : gmap string PyObject) : bool :=
  py_all (λ param, contains params param) (required_parameters self).

End Tool.

Module AgentAction.

Record t := mk {
  action_type : string;
  content : option string;
  tool_name : option string;
  tool_parameters : option (gmap string PyObject);
  timestamp : datetime
}.

Definition new (action_type : string) (content tool_name : option string)
    (tool_parameters : option (gmap string PyObject)) : Py World.t t :=
  ts ← World.now;
  ret (mk action_type content tool_name tool_parameters ts).

End AgentAction.

Module Agent.

Record t := mk {
  id : string;
  name : string;
  description : string;
  available_tools : list Tool.t;
  messages : list Message.t;
  memories : list Memory.t;
  thoughts : list AgentThought.t;
  actions : list AgentAction.t
}.

(** [self.<log>.append(x)]: the list object is extended in place. *)
Definition append_available_tools (x : Tool.t) (a : t) : t :=
  mk (id a) (name a) (description a) (available_tools a ++ [x])
     (messages a) (memories a) (thoughts a) (actions a).

Definition append_messages (x : Message.t) (a : t) : t :=
  mk (id a) (name a) (description a) (available_tools a)
     (messages a ++ [x]) (memories a) (thoughts a) (actions a).

Definition append_memories (x : Memory.t) (a : t) : t :=
  mk (id a) (name a) (description a) (available_tools a)
     (messages a) (memories a ++ [x]) (thoughts a) (actions a).

Definition append_thoughts (x : AgentThought.t) (a : t) : t :=
  mk (id a) (name a) (description a) (available_tools a)
     (messages a) (memories a) (thoughts a ++ [x]) (actions a).

Definition append_actions (x : AgentAction.t) (a : t) : t :=
  mk (id a) (name a) (description a) (available_tools a)
     (messages a) (memories a) (thoughts a) (actions a ++ [x]).

Definition add_message (role content : string) : Meth t PyObject :=
  m ← in_world (Message.new role content);
  set_self (append_messages m);;
  ret PyNone.

Definition add_thought (content : string) : Meth t PyObject :=
  th ← in_world (AgentThought.new content);
  set_self (append_thoughts th);;
  ret PyNone.

Definition add_memory (memory : Memory.t) : Meth t PyObject :=
  set_self (append_memories memory);;
  ret PyNone.

Definition record_action (action : AgentAction.t) : Meth t PyObject :=
  set_self (append_actions action);;
  ret PyNone.

End Agent.

(** ** src/agent.py *)

Module PydanticAgent.

(** [OpenAI(api_key=...)]: the client is an external collaborator; only the
    key it was built with is kept. *)
Record OpenAI := mk_OpenAI {
  openai_api_key : option string
}.

Record t := mk {
  api_key : option string;
  llm : OpenAI;
  agent_model : Agent.t
}.

Definition set_agent_model (a : Agent.t) (self : t) : t :=
  mk (api_key self) (llm self) a.

(** A call on [self.agent_model]. *)
Definition on_agent_model {A} (c : Meth Agent.t A) : Meth t A :=
  zoom (λ σ, (agent_model (fst σ), snd σ))
       (λ τ σ, (set_agent_model (fst τ) (fst σ), snd τ)) c.

(** [PydanticAgent(name, description, system_prompt, openai_api_key=None)]:
    the constructor call, returning the new object. *)
Definition __init__ (name description system_prompt : string)
    (openai_api_key : option string) : Py World.t t :=
  env_key ← World.getenv "OPENAI_API_KEY";
  let api_key := py_or openai_api_key env_key in
  if negb (truthy_opt api_key) then
    raise (ValueError
      "OpenAI API key must be provided or set as OPENAI_API_KEY environment variable")
  else
    let llm := mk_OpenAI api_key in
    uid ← World.uuid4_str;
    seed ← Message.new "system" system_prompt;
    ret (mk api_key llm (Agent.mk uid name description [] [seed] [] [] [])).

Definition add_tool (tool : Tool.t) : Meth t PyObject :=
  on_agent_model (set_self (Agent.append_available_tools tool));;
  in_world (World.logger_info ("Added tool: " +:+ Tool.name tool));;
  ret PyNone.

(** [importance: int = 5]: [None] stands for the argument left out. *)
Definition add_memory (content source : string) (importance : option Z)
    : Meth t PyObject :=
  let importance := default 5 importance in
  uid ← in_world World.uuid4_str;
  memory ← in_world (Memory.new uid content source (Some importance));
  on_agent_model (Agent.add_memory memory);;
  in_world (World.logger_info ("Added memory: " +:+ Memory.id memory));;
  ret PyNone.

End PydanticAgent.

(** ** src/tools.py *)

Module tools.

Definition create_weather_tool : Tool.t :=
  Tool.mk "get_weather"
    "Get current weather information for a location"
    {[ "location" :=
         PyStr "The city and state or country (e.g., 'New York, NY' or 'London, UK')" ]}
    ["location"].

Definition create_search_tool : Tool.t :=
  Tool.mk "web_search"
    "Search the web for information"
    (<["query" := PyStr "The search query"]>
       {[ "num_results" := PyStr "Number of results to return (default: 5)" ]})
    ["query"].

Definition create_calculator_tool : Tool.t :=
  Tool.mk "calculator"
    "Perform a mathematical calculation"
    {[ "expression" :=
         PyStr "The mathematical expression to evaluate (e.g., '2 + 2')" ]}
    ["expression"].

Definition create_time_tool : Tool.t :=
  Tool.mk "get_time"
    "Get the current date and time"
    {[ "timezone" := PyStr "Optional timezone (default: UTC)" ]}
    [].

(** One entry of the mock result list: a [Dict[str, str]]. *)
Definition search_result (query : string) (i : Z) : gmap string string :=
  <["title" := "Result " +:+ str_of_int (i + 1) +:+ " for '" +:+ query +:+ "'"]>
  (<["url" := "https://example.com/result" +:+ str_of_int (i + 1)]>
  {[ "snippet" :=
       "This is a snippet of information related to " +:+ query +:+ "..." ]}).

(** [num_results: int = 5]: [None] stands for the argument left out. *)
Definition web_search (query : string) (num_results : option Z)
    : list (gmap string string) :=
  let num_results := default 5 num_results in
  (λ i, search_result query i) <$> range (Z.min num_results 10).

End tools.

(** ** Vocabulary of the statements *)

Definition returns {A} (o : Outcome A) : Prop := ∃ a, o = Return a.

Definition raises_ValidationError {A} (o : Outcome A) : Prop :=
  ∃ model loc kind, o = Raise (ValidationError model loc kind).

Definition raises_ValueError {A} (o : Outcome A) : Prop :=
  ∃ msg, o = Raise (ValueError msg).

(** The key [__init__] ends up with: the argument, else the environment. *)
Definition effective_key (openai_api_key : option string) (w : World.t) : option string :=
  py_or openai_api_key (World.environ w !! "OPENAI_API_KEY").

(** A run of [add_message] calls, one per (role, content) pair. *)
Definition add_messages (calls : list (string * string)) : Meth Agent.t unit :=
  for_each calls (λ c, Agent.add_message c.1 c.2).

(** A concrete world and agent to evaluate on. *)
Definition uuids0 (n : nat) : string :=
  match n with
  | O => "6f1c2a9e-0000-4000-8000-000000000000"
  | S O => "6f1c2a9e-0000-4000-8000-000000000001"
  | _ => "6f1c2a9e-0000-4000-8000-00000000ffff"
  end.

Definition world0 : World.t :=
  World.mk {[ "OPENAI_API_KEY" := "sk-test" ]}
    uuids0 0 (λ n, 1700000000 + Z.of_nat n) 0 [].

Definition agent0 : Agent.t :=
  Agent.mk (uuids0 0) "A" "B" [] [Message.mk "system" "sys" 1700000000] [] [] [].

Definition pydantic_agent0 : PydanticAgent.t :=
  PydanticAgent.mk (Some "sk-test") (PydanticAgent.mk_OpenAI (Some "sk-test")) agent0.

Definition world1 : World.t :=
  World.mk {[ "OPENAI_API_KEY" := "sk-test" ]}
    uuids0 1 (λ n, 1700000000 + Z.of_nat n) 1 [].

(** The end-to-end scenario of the specification, on a created agent. *)
Definition scenario : Meth PydanticAgent.t unit :=
  PydanticAgent.add_tool tools.create_weather_tool;;
  PydanticAgent.add_tool tools.create_search_tool;;
  PydanticAgent.add_tool tools.create_calculator_tool;;
  PydanticAgent.add_tool tools.create_time_tool;;
  PydanticAgent.add_memory "Python is a high-level language." "agent_knowledge_base"
    (Some 7);;
  PydanticAgent.add_memory "The user prefers concise answers." "user_preference_analysis"
    (Some 6);;
  PydanticAgent.on_agent_model (Agent.add_message "user" "Hello");;
  PydanticAgent.on_agent_model (Agent.add_thought "Greet the user back.");;
  action ← in_world (AgentAction.new "response" (Some "Hi there") None None);
  PydanticAgent.on_agent_model (Agent.record_action action);;
  PydanticAgent.on_agent_model (Agent.add_message "assistant" "Hi there");;
  ret tt.

Definition scenario_agent : Agent.t :=
  match PydanticAgent.__init__ "A" "B" "You are helpful" None world0 with
  | (Return pa, w) => PydanticAgent.agent_model (scenario (pa, w)).2.1
  | (Raise _, _) => agent0
  end.

(** ** src/agent.py: prompts and the processing turn *)

(** langchain's message classes, from which the prompts are built. *)
Inductive BaseMessage :=
  | SystemMessage (content : string)
  | HumanMessage (content : string)
  | AIMessage (content : string).

(** What the methods below take from outside the repository. *)
Module External.

Record t := mk {
  (** the order in which iterating a [dict] yields its keys: insertion order
      in Python, which the finite map does not record *)
  dict_keys : gmap string PyObject → list string;
  (** [(prompt | llm | StrOutputParser()).invoke({})]: the generated text, or
      the exception the service call ends with *)
  chain_invoke : PydanticAgent.OpenAI → list BaseMessage → World.t → Outcome string;
  (** the exception of a list index out of range *)
  IndexError : Exn
}.

End External.

(** The line feed of a [\n] in a string literal. *)
Definition nl : string :=
  String (Ascii.Ascii false true false true false false false false) "".

(** [sep.join(xs)]. *)
Fixpoint join (sep : string) (xs : list string) : string :=
  match xs with
  | [] => ""
  | x :: xs' =>
      match xs' with
      | [] => x
      | _ :: _ => x +:+ sep +:+ join sep xs'
      end
  end.

(** [xs[i]] for a non-negative [i]. *)
Definition subscript {Σ A} (err : Exn) (xs : list A) (i : nat) : Py Σ A :=
  match xs !! i with
  | Some x => ret x
  | None => raise err
  end.

Definition get_self {C} : Meth C C := λ σ, (Return σ.1, σ).

(** Further methods of [PydanticAgent]. *)
Module Turn.

(** One [{"role": ..., "content": ...}] entry. *)
Definition prompt_message (msg : Message.t) : gmap string string :=
  <["role" := Message.role msg]> {[ "content" := Message.content msg ]}.

Definition _get_prompt_messages (self : PydanticAgent.t) : list (gmap string string) :=
  foldl (λ prompt_messages msg, prompt_messages ++ [prompt_message msg]) []
    (Agent.messages (PydanticAgent.agent_model self)).

(** The comprehension joined into [params_desc]. *)
Definition params_desc_items (ext : External.t) (tool : Tool.t) : list string :=
  (λ param,
     if bool_decide (param ∈ Tool.required_parameters tool)
     then param +:+ " (required)"
     else param)
  <$> External.dict_keys ext (Tool.parameters tool).

Definition tool_description (ext : External.t) (tool : Tool.t) : string :=
  "Tool: " +:+ Tool.name tool +:+ nl +:+
  "Description: " +:+ Tool.description tool +:+ nl +:+
  "Parameters: " +:+ join ", " (params_desc_items ext tool) +:+ nl.

Definition _format_tools_for_prompt (ext : External.t) (self : PydanticAgent.t)
    : string :=
  match Agent.available_tools (PydanticAgent.agent_model self) with
  | [] => "No tools available."
  | _ :: _ =>
      join nl
        (foldl (λ tool_descriptions tool,
                  tool_descriptions ++ [tool_description ext tool]) []
           (Agent.available_tools (PydanticAgent.agent_model self)))
  end.

(** The two prompts, given the formatted tools. *)
Definition thinking_prompt (tools_text user_input : string) : list BaseMessage :=
  [ SystemMessage
      ("You are an AI assistant thinking step by step about how to respond to a user. "
       +:+ "Think through what tools might be useful and how to structure your response.");
    HumanMessage
      ("User input: " +:+ user_input +:+ nl +:+ nl +:+
       "Available tools:" +:+ nl +:+ tools_text +:+ nl +:+ nl +:+
       "Think step by step about how to respond to this user request.") ].

Definition main_prompt (system_content tools_text user_input : string)
    : list BaseMessage :=
  [ SystemMessage system_content;
    HumanMessage
      ("Available tools:" +:+ nl +:+ tools_text +:+ nl +:+ nl +:+
       "User input: " +:+ user_input) ].

(** [chain.invoke({})] on a prompt. *)
Definition invoke (ext : External.t) (prompt : list BaseMessage)
    : Meth PydanticAgent.t string :=
  λ σ, (External.chain_invoke ext (PydanticAgent.llm σ.1) prompt σ.2, σ).

Definition _think (ext : External.t) (user_input : string)
    : Meth PydanticAgent.t string :=
  self ← get_self;
  thought ← invoke ext
    (thinking_prompt (_format_tools_for_prompt ext self) user_input);
  PydanticAgent.on_agent_model (Agent.add_thought thought);;
  ret thought.

Definition process_user_input (ext : External.t) (user_input : string)
    : Meth PydanticAgent.t string :=
  PydanticAgent.on_agent_model (Agent.add_message "user" user_input);;
  _think ext user_input;;
  self ← get_self;
  first ← subscript (External.IndexError ext)
             (Agent.messages (PydanticAgent.agent_model self)) 0;
  response ← invoke ext
    (main_prompt (Message.content first) (_format_tools_for_prompt ext self)
       user_input);
  action ← in_world (AgentAction.new "response" (Some response) None None);
  PydanticAgent.on_agent_model (Agent.record_action action);;
  PydanticAgent.on_agent_model (Agent.add_message "assistant" response);;
  ret response.

End Turn.

(** ** Uses of the agent, one call at a time *)

(** A call a user of a [PydanticAgent] can make: its methods, and the
    methods of its [agent_model]. *)
Inductive Call :=
  | call_add_tool (tool : Tool.t)
  | call_add_memory (content source : string) (importance : option Z)
  | call_process_user_input (user_input : string)
  | call_add_message (role content : string)
  | call_add_thought (content : string)
  | call_record_action (action : AgentAction.t).

Definition run_call (ext : External.t) (c : Call) : Meth PydanticAgent.t unit :=
  match c with
  | call_add_tool tool => PydanticAgent.add_tool tool;; ret tt
  | call_add_memory content source importance =>
      PydanticAgent.add_memory content source importance;; ret tt
  | call_process_user_input user_input =>
      Turn.process_user_input ext user_input;; ret tt
  | call_add_message role content =>
      PydanticAgent.on_agent_model (Agent.add_message role content);; ret tt
  | call_add_thought content =>
      PydanticAgent.on_agent_model (Agent.add_thought content);; ret tt
  | call_record_action action =>
      PydanticAgent.on_agent_model (Agent.record_action action);; ret tt
  end.

(** The state one call leaves, whether it returned or raised. *)
Definition step (ext : External.t) (σ σ' : PydanticAgent.t * World.t) : Prop :=
  ∃ c, (run_call ext c σ).2 = σ'.

(** What no call undoes: the identity of the agent, and what each log and
    the world held. *)
Definition extends (σ σ' : PydanticAgent.t * World.t) : Prop :=
  PydanticAgent.api_key σ'.1 = PydanticAgent.api_key σ.1
  ∧ PydanticAgent.llm σ'.1 = PydanticAgent.llm σ.1
  ∧ Agent.id (PydanticAgent.agent_model σ'.1) = Agent.id (PydanticAgent.agent_model σ.1)
  ∧ Agent.name (PydanticAgent.agent_model σ'.1)
    = Agent.name (PydanticAgent.agent_model σ.1)
  ∧ Agent.description (PydanticAgent.agent_model σ'.1)
    = Agent.description (PydanticAgent.agent_model σ.1)
  ∧ Agent.available_tools (PydanticAgent.agent_model σ.1)
    `prefix_of` Agent.available_tools (PydanticAgent.agent_model σ'.1)
  ∧ Agent.messages (PydanticAgent.agent_model σ.1)
    `prefix_of` Agent.messages (PydanticAgent.agent_model σ'.1)
  ∧ Agent.memories (PydanticAgent.agent_model σ.1)
    `prefix_of` Agent.memories (PydanticAgent.agent_model σ'.1)
  ∧ Agent.thoughts (PydanticAgent.agent_model σ.1)
    `prefix_of` Agent.thoughts (PydanticAgent.agent_model σ'.1)
  ∧ Agent.actions (PydanticAgent.agent_model σ.1)
    `prefix_of` Agent.actions (PydanticAgent.agent_model σ'.1)
  ∧ World.log_records σ.2 `prefix_of` World.log_records σ'.2
  ∧ World.environ σ'.2 = World.environ σ.2
  ∧ (World.uuid4_calls σ.2 ≤ World.uuid4_calls σ'.2)%nat
  ∧ (World.now_calls σ.2 ≤ World.now_calls σ'.2)%nat.

Definition importances_valid (σ : PydanticAgent.t * World.t) : Prop :=
  Forall (λ m, 1 ≤ Memory.importance m ≤ 10)
    (Agent.memories (PydanticAgent.agent_model σ.1)).

(** A service that answers the thinking prompt and the main prompt apart. *)
Definition ext0 : External.t :=
  External.mk (λ params, (map_to_list params).*1)
    (λ _ prompt _,
       match prompt with
       | SystemMessage "sys" :: _ => Return "Hi there"
       | _ => Return "Greet the user back."
       end)
    (ValueError "list index out of range").

(** A service that is down. *)
Definition ext_down : External.t :=
  External.mk (λ params, (map_to_list params).*1)
    (λ _ _ _, Raise (ValueError "connection refused"))
    (ValueError "list index out of range").

(** A service that answers the thinking prompt only. *)
Definition ext_half : External.t :=
  External.mk (λ params, (map_to_list params).*1)
    (λ _ prompt _,
       match prompt with
       | SystemMessage "sys" :: _ => Raise (ValueError "connection refused")
       | _ => Return "Greet the user back."
       end)
    (ValueError "list index out of range").

(** *** Vocabulary for a turn *)

(** The [k]-th next reading of the clock, and the world after [k] readings. *)
Definition clock (w : World.t) (k : nat) : datetime :=
  World.now_values w (k + World.now_calls w).

Definition tick (k : nat) (w : World.t) : World.t :=
  World.mk (World.environ w) (World.uuid4_values w) (World.uuid4_calls w)
    (World.now_values w) (k + World.now_calls w) (World.log_records w).

(** The [k]-th next value of the uuid source. *)
Definition uuid_at (w : World.t) (k : nat) : string :=
  World.uuid4_values w (k + World.uuid4_calls w).

(** The content of [messages[0]] once the user message has been appended. *)
Definition system_content (pa : PydanticAgent.t) (user_input : string) : string :=
  match Agent.messages (PydanticAgent.agent_model pa) with
  | [] => user_input
  | first :: _ => Message.content first
  end.

(** What the service does with the two prompts of a turn started on
    [(pa, w)]. *)
Definition thinking_outcome (ext : External.t) (pa : PydanticAgent.t) (w : World.t)
    (user_input : string) : Outcome string :=
  External.chain_invoke ext (PydanticAgent.llm pa)
    (Turn.thinking_prompt (Turn._format_tools_for_prompt ext pa) user_input)
    (tick 1 w).

Definition response_outcome (ext : External.t) (pa : PydanticAgent.t) (w : World.t)
    (user_input : string) : Outcome string :=
  External.chain_invoke ext (PydanticAgent.llm pa)
    (Turn.main_prompt (system_content pa user_input)
       (Turn._format_tools_for_prompt ext pa) user_input)
    (tick 2 w).

(** The agent at the three points where a turn can end. *)
Definition after_user (user_input : string) (pa : PydanticAgent.t) (w : World.t)
    : PydanticAgent.t :=
  PydanticAgent.set_agent_model
    (Agent.append_messages (Message.mk "user" user_input (clock w 0))
       (PydanticAgent.agent_model pa)) pa.

Definition after_thought (user_input thought : string) (pa : PydanticAgent.t)
    (w : World.t) : PydanticAgent.t :=
  PydanticAgent.set_agent_model
    (Agent.append_thoughts (AgentThought.mk thought (clock w 1))
       (PydanticAgent.agent_model (after_user user_input pa w)))
    (after_user user_input pa w).

Definition after_response (user_input thought response : string)
    (pa : PydanticAgent.t) (w : World.t) : PydanticAgent.t :=
  PydanticAgent.set_agent_model
    (Agent.append_messages (Message.mk "assistant" response (clock w 3))
       (Agent.append_actions
          (AgentAction.mk "response" (Some response) None None (clock w 2))
          (PydanticAgent.agent_model (after_thought user_input thought pa w))))
    (after_thought user_input thought pa w).

(** A run of turns, one per user input. *)
Definition process_user_inputs (ext : External.t) (user_inputs : list string)
    : Meth PydanticAgent.t unit :=
  for_each user_inputs (Turn.process_user_input ext).

(** The (role, content) pairs a run of turns adds to [messages]. *)
Definition exchange (turns : list (string * string)) : list (string * string) :=
  turns ≫= λ turn, [("user", turn.1); ("assistant", turn.2)].

(** Runs of the store's calls, one per element. *)
Definition add_tools (tools : list Tool.t) : Meth PydanticAgent.t unit :=
  for_each tools PydanticAgent.add_tool.

Definition add_memories (specs : list (string * string * Z))
    : Meth PydanticAgent.t unit :=
  for_each specs (λ spec, PydanticAgent.add_memory spec.1.1 spec.1.2 (Some spec.2)).

Definition add_thoughts (contents : list string) : Meth Agent.t unit :=
  for_each contents Agent.add_thought.

Definition record_actions (actions : list AgentAction.t) : Meth Agent.t unit :=
  for_each actions Agent.record_action.

(** An agent with an earlier exchange in its history. *)
Definition pydantic_agent1 : PydanticAgent.t :=
  PydanticAgent.mk (Some "sk-test") (PydanticAgent.mk_OpenAI (Some "sk-test"))
    (Agent.append_messages (Message.mk "assistant" "Welcome back" 1600000001)
       (Agent.append_messages (Message.mk "user" "Remember me" 1600000000) agent0)).

(** An agent with more at the end of its lists, and nothing else changed. *)
Definition grown (pa : PydanticAgent.t) (tools : list Tool.t)
    (msgs : list Message.t) (mems : list Memory.t) (ths : list AgentThought.t)
    (acts : list AgentAction.t) : PydanticAgent.t :=
  PydanticAgent.mk (PydanticAgent.api_key pa) (PydanticAgent.llm pa)
    (Agent.mk (Agent.id (PydanticAgent.agent_model pa))
       (Agent.name (PydanticAgent.agent_model pa))
       (Agent.description (PydanticAgent.agent_model pa))
       (Agent.available_tools (PydanticAgent.agent_model pa) ++ tools)
       (Agent.messages (PydanticAgent.agent_model pa) ++ msgs)
       (Agent.memories (PydanticAgent.agent_model pa) ++ mems)
       (Agent.thoughts (PydanticAgent.agent_model pa) ++ ths)
       (Agent.actions (PydanticAgent.agent_model pa) ++ acts)).

(** Unfolds the plumbing of a call, down to the state it is applied to. *)
Ltac py_unfold :=
  unfold mbind, Py_bind, bind, ret, raise, in_world, zoom, set_self, modify;
  simpl.

(** ** Running calls: the equations the proofs rewrite with *)

Lemma bind_Return {Σ A B} (c : Py Σ A) (k : A → Py Σ B) σ a σ' :
  c σ = (Return a, σ') → bind c k σ = k a σ'.
Proof. intros Hc. unfold bind. by rewrite Hc. Qed.

Lemma bind_Raise {Σ A B} (c : Py Σ A) (k : A → Py Σ B) σ e σ' :
  c σ = (Raise e, σ') → bind c k σ = (Raise e, σ').
Proof. intros Hc. unfold bind. by rewrite Hc. Qed.

Lemma mbind_unfold {Σ A B} (c : Py Σ A) (k : A → Py Σ B) σ :
  (c ≫= k) σ = bind c k σ.
Proof. reflexivity. Qed.

Lemma in_world_Return {C A} (c : Py World.t A) (s : C) w a w' :
  c w = (Return a, w') → in_world c (s, w) = (Return a, (s, w')).
Proof. intros Hc. unfold in_world, zoom. simpl. by rewrite Hc. Qed.

Lemma in_world_Raise {C A} (c : Py World.t A) (s : C) w e w' :
  c w = (Raise e, w') → in_world c (s, w) = (Raise e, (s, w')).
Proof. intros Hc. unfold in_world, zoom. simpl. by rewrite Hc. Qed.

Lemma for_each_app {Σ A B} (xs ys : list A) (body : A → Py Σ B) σ :
  for_each (xs ++ ys) body σ = bind (for_each xs body) (λ _, for_each ys body) σ.
Proof.
  revert σ. induction xs as [|x xs IH]; intros σ; [done|].
  simpl. unfold bind. destruct (body x σ) as [[b|e] σ1]; [|done].
  rewrite IH. reflexivity.
Qed.

(** *** Constructors *)

Lemma Message_new_eq role content w :
  Message.new role content w
  = (Return (Message.mk role content (World.now_values w (World.now_calls w))),
     (World.now w).2).
Proof. reflexivity. Qed.

Lemma AgentThought_new_eq content w :
  AgentThought.new content w
  = (Return (AgentThought.mk content (World.now_values w (World.now_calls w))),
     (World.now w).2).
Proof. reflexivity. Qed.

Lemma Memory_new_in_range id content source i w :
  1 ≤ i ≤ 10 →
  Memory.new id content source (Some i) w
  = (Return (Memory.mk id content source i
               (World.now_values w (World.now_calls w)) None),
     (World.now w).2).
Proof.
  intros Hi. unfold Memory.new, Memory.check_importance_field.
  rewrite (bool_decide_eq_false_2 (i < 1)) by lia.
  rewrite (bool_decide_eq_false_2 (i > 10)) by lia.
  py_unfold. unfold Memory.validate_importance. simpl.
  rewrite bool_decide_eq_false_2 by lia. reflexivity.
Qed.

Lemma Memory_new_out_of_range id content source i w :
  ¬ (1 ≤ i ≤ 10) →
  ∃ kind,
    Memory.new id content source (Some i) w
    = (Raise (ValidationError "Memory" ["importance"] kind), (World.now w).2).
Proof.
  intros Hi. unfold Memory.new, Memory.check_importance_field.
  destruct (decide (i < 1)) as [Hlt|Hge].
  - rewrite (bool_decide_eq_true_2 (i < 1)) by done. by eexists.
  - rewrite (bool_decide_eq_false_2 (i < 1)) by done.
    rewrite (bool_decide_eq_true_2 (i > 10)) by lia. by eexists.
Qed.

(** *** Methods of [Agent] *)

Lemma add_message_eq role content a w :
  Agent.add_message role content (a, w)
  = (Return PyNone,
     (Agent.append_messages
        (Message.mk role content (World.now_values w (World.now_calls w))) a,
      (World.now w).2)).
Proof. reflexivity. Qed.

Lemma add_thought_eq content a w :
  Agent.add_thought content (a, w)
  = (Return PyNone,
     (Agent.append_thoughts
        (AgentThought.mk content (World.now_values w (World.now_calls w))) a,
      (World.now w).2)).
Proof. reflexivity. Qed.

(** A run of [add_message] calls returns, and extends [messages] at its end
    by one message per call, in order; no other field moves. *)
Lemma add_messages_run calls a w :
  ∃ new w',
    add_messages calls (a, w) = (Return tt, (Agent.mk (Agent.id a) (Agent.name a)
      (Agent.description a) (Agent.available_tools a) (Agent.messages a ++ new)
      (Agent.memories a) (Agent.thoughts a) (Agent.actions a), w'))
    ∧ (λ m, (Message.role m, Message.content m)) <$> new = calls.
Proof.
  revert a w. induction calls as [|[role content] calls IH]; intros a w.
  - exists [], w. rewrite app_nil_r. by destruct a.
  - unfold add_messages. simpl.
    erewrite bind_Return by apply add_message_eq.
    destruct (IH (Agent.append_messages
                    (Message.mk role content
                       (World.now_values w (World.now_calls w))) a)
                 (World.now w).2) as (new & w' & Hrun & Hnew).
    unfold add_messages in Hrun. rewrite Hrun. simpl.
    eexists (_ :: new), w'. split.
    + by rewrite <- app_assoc.
    + by rewrite fmap_cons, Hnew.
Qed.

(** *** [PydanticAgent.__init__] *)

Lemma init_with_key name description system_prompt key w :
  truthy_opt (effective_key key w) = true →
  PydanticAgent.__init__ name description system_prompt key w
  = (Return (PydanticAgent.mk (effective_key key w)
               (PydanticAgent.mk_OpenAI (effective_key key w))
               (Agent.mk (World.uuid4_values w (World.uuid4_calls w))
                  name description []
                  [Message.mk "system" system_prompt
                     (World.now_values w (World.now_calls w))] [] [] [])),
     (World.now (World.uuid4_str w).2).2).
Proof.
  intros Hkey. unfold PydanticAgent.__init__. rewrite mbind_unfold.
  unfold bind, World.getenv. unfold effective_key in Hkey |- *.
  rewrite Hkey. reflexivity.
Qed.

Lemma init_without_key name description system_prompt key w :
  truthy_opt (effective_key key w) = false →
  PydanticAgent.__init__ name description system_prompt key w
  = (Raise (ValueError
       "OpenAI API key must be provided or set as OPENAI_API_KEY environment variable"),
     w).
Proof.
  intros Hkey. unfold PydanticAgent.__init__. rewrite mbind_unfold.
  unfold bind, World.getenv. unfold effective_key in Hkey.
  rewrite Hkey. reflexivity.
Qed.

(** *** [PydanticAgent.add_memory] *)

(** The world after [uuid.uuid4()] and the clock reading of [Memory(...)]. *)
Lemma add_memory_in_range content source i self w :
  1 ≤ i ≤ 10 →
  let w1 := (World.uuid4_str w).2 in
  let memory := Memory.mk (World.uuid4_values w (World.uuid4_calls w))
                  content source i
                  (World.now_values w1 (World.now_calls w1)) None in
  PydanticAgent.add_memory content source (Some i) (self, w)
  = (Return PyNone,
     (PydanticAgent.set_agent_model
        (Agent.append_memories memory (PydanticAgent.agent_model self)) self,
      (World.logger_info ("Added memory: " +:+ Memory.id memory)
         (World.now w1).2).2)).
Proof.
  intros Hi w1 memory. unfold PydanticAgent.add_memory.
  rewrite mbind_unfold. erewrite bind_Return by (by apply in_world_Return).
  rewrite mbind_unfold.
  erewrite bind_Return
    by (apply in_world_Return; apply Memory_new_in_range; simpl; exact Hi).
  reflexivity.
Qed.

Lemma add_memory_out_of_range content source i self w :
  ¬ (1 ≤ i ≤ 10) →
  ∃ kind,
    PydanticAgent.add_memory content source (Some i) (self, w)
    = (Raise (ValidationError "Memory" ["importance"] kind),
       (self, (World.now (World.uuid4_str w).2).2)).
Proof.
  intros Hi. unfold PydanticAgent.add_memory.
  rewrite mbind_unfold. erewrite bind_Return by (by apply in_world_Return).
  destruct (Memory_new_out_of_range (World.uuid4_values w (World.uuid4_calls w))
              content source i (World.uuid4_str w).2 Hi) as [kind Hnew].
  exists kind. rewrite mbind_unfold.
  erewrite bind_Raise; [reflexivity|].
  apply in_world_Raise. simpl. exact Hnew.
Qed.

(** ** Properties of the specification *)

(** *** Tool descriptors and mock tools *)

Lemma contains_dom (params : gmap string PyObject) (param : string) :
  Tool.contains params param = true ↔ param ∈ dom params.
Proof.
  unfold Tool.contains. rewrite bool_decide_eq_true. symmetry. apply elem_of_dom.
Qed.

Lemma range_length (n : Z) : length (range n) = Z.to_nat n.
Proof. unfold range. by rewrite length_fmap, length_seq. Qed.

Example weather_tool_with_location :
  Tool.validate_parameters tools.create_weather_tool {[ "location" := PyStr "Paris" ]}
  = true.
Proof. vm_compute. reflexivity. Qed.

Example weather_tool_without_location :
  Tool.validate_parameters tools.create_weather_tool ∅ = false.
Proof. vm_compute. reflexivity. Qed.

(** C5: [Tool.validate_parameters] returns true exactly when every name of
    [required_parameters] is a key of the supplied mapping; so it is true
    when nothing is required, and a key that is not required, whatever its
    value, does not change the answer. *)
Theorem validate_parameters_iff_required_present
    (tool : Tool.t) (params : gmap string PyObject) :
  (Tool.validate_parameters tool params = true
   ↔ ∀ name, name ∈ Tool.required_parameters tool → name ∈ dom params)
  ∧ (Tool.required_parameters tool = [] →
     Tool.validate_parameters tool params = true)
  ∧ (∀ extra value, extra ∉ Tool.required_parameters tool →
     Tool.validate_parameters tool (<[extra := value]> params)
     = Tool.validate_parameters tool params).
Proof.
  unfold Tool.validate_parameters, py_all. repeat split.
  - intros Hall name Hin. apply contains_dom.
    rewrite forallb_forall in Hall. apply Hall. by apply list_elem_of_In.
  - intros Hall. apply forallb_forall. intros name Hin.
    apply contains_dom, Hall. by apply list_elem_of_In.
  - intros ->. reflexivity.
  - intros extra value Hextra. apply eq_true_iff_eq.
    rewrite !forallb_forall. split; intros Hall name Hin.
    + specialize (Hall name Hin). rewrite contains_dom in Hall |- *.
      rewrite dom_insert_L in Hall. apply elem_of_union in Hall as [Hx|Hx]; [|done].
      apply elem_of_singleton in Hx. subst name.
      destruct Hextra. by apply list_elem_of_In.
    + specialize (Hall name Hin). rewrite contains_dom in Hall |- *.
      rewrite dom_insert_L. apply elem_of_union. by right.
Qed.

Example web_search_default_count :
  length (tools.web_search "rocq" None) = 5%nat.
Proof. reflexivity. Qed.

Example web_search_titles :
  (λ r : gmap string string, r !! "title") <$> tools.web_search "q" (Some 2)
  = [Some "Result 1 for 'q'"; Some "Result 2 for 'q'"].
Proof. vm_compute. reflexivity. Qed.

(** C9: for every query and every integer [num_results], [web_search]
    returns exactly [min(num_results, 10)] results when [num_results >= 0],
    the empty list when [num_results < 0], and never more than 10. *)
Theorem web_search_result_count (query : string) (num_results : Z) :
  (0 ≤ num_results →
   Z.of_nat (length (tools.web_search query (Some num_results)))
   = Z.min num_results 10)
  ∧ (num_results < 0 → tools.web_search query (Some num_results) = [])
  ∧ (length (tools.web_search query (Some num_results)) ≤ 10)%nat.
Proof.
  unfold tools.web_search. simpl. rewrite length_fmap, range_length.
  repeat split.
  - lia.
  - intros Hneg. apply nil_length_inv. rewrite length_fmap, range_length. lia.
  - lia.
Qed.

(** *** Recording memories *)

Example add_memory_importance_0 :
  (PydanticAgent.add_memory "c" "s" (Some 0) (pydantic_agent0, world1)).1
  = Raise (ValidationError "Memory" ["importance"] (greater_than_equal 1)).
Proof. reflexivity. Qed.

Example add_memory_importance_11 :
  (PydanticAgent.add_memory "c" "s" (Some 11) (pydantic_agent0, world1)).1
  = Raise (ValidationError "Memory" ["importance"] (less_than_equal 10)).
Proof. reflexivity. Qed.

Example add_memory_importance_minus_5 :
  (PydanticAgent.add_memory "c" "s" (Some (-5)) (pydantic_agent0, world1)).1
  = Raise (ValidationError "Memory" ["importance"] (greater_than_equal 1)).
Proof. reflexivity. Qed.

Example add_memory_importance_1 :
  (PydanticAgent.add_memory "c" "s" (Some 1) (pydantic_agent0, world1)).1
  = Return PyNone.
Proof. reflexivity. Qed.

Example add_memory_importance_10 :
  (PydanticAgent.add_memory "c" "s" (Some 10) (pydantic_agent0, world1)).1
  = Return PyNone.
Proof. reflexivity. Qed.

(** C1: [PydanticAgent.add_memory] returns if and only if the importance is
    within 1..10. Outside that range it raises a validation error and records
    no memory (no clamped value is stored); inside it, the memory recorded
    carries the importance as given, the bounds 1 and 10 included. *)
Theorem add_memory_succeeds_iff_importance_in_range
    (pa : PydanticAgent.t) (w : World.t) (content source : string) (i : Z) :
  (returns (PydanticAgent.add_memory content source (Some i) (pa, w)).1
   ↔ 1 ≤ i ≤ 10)
  ∧ (¬ (1 ≤ i ≤ 10) →
     raises_ValidationError
       (PydanticAgent.add_memory content source (Some i) (pa, w)).1
     ∧ Agent.memories (PydanticAgent.agent_model
         (PydanticAgent.add_memory content source (Some i) (pa, w)).2.1)
       = Agent.memories (PydanticAgent.agent_model pa))
  ∧ (1 ≤ i ≤ 10 →
     ∃ memory,
       Agent.memories (PydanticAgent.agent_model
         (PydanticAgent.add_memory content source (Some i) (pa, w)).2.1)
       = Agent.memories (PydanticAgent.agent_model pa) ++ [memory]
       ∧ Memory.importance memory = i).
Proof.
  destruct (decide (1 ≤ i ≤ 10)) as [Hin|Hout].
  - rewrite (add_memory_in_range content source i pa w Hin). simpl.
    split; [|split].
    + split; [done|]. intros _. by exists PyNone.
    + intros Hout. by destruct Hout.
    + intros _. eexists. split; reflexivity.
  - destruct (add_memory_out_of_range content source i pa w Hout) as [kind Hrun].
    rewrite Hrun. simpl. split; [|split].
    + split; [|done]. intros [v Hv]. discriminate Hv.
    + intros _. split; [|reflexivity]. by do 3 eexists.
    + intros Hin. by destruct Hout.
Qed.

(** C6: when [PydanticAgent.add_memory] is called with an importance outside
    1..10, the call itself raises the validation error and the agent object
    it was called on is exactly what it was: no memory is appended, no other
    log changes, and nothing is logged. *)
Theorem add_memory_invalid_leaves_agent_unmodified
    (pa : PydanticAgent.t) (w : World.t) (content source : string) (i : Z) :
  ¬ (1 ≤ i ≤ 10) →
  ∃ loc kind w',
    PydanticAgent.add_memory content source (Some i) (pa, w)
    = (Raise (ValidationError "Memory" loc kind), (pa, w'))
    ∧ World.log_records w' = World.log_records w.
Proof.
  intros Hout.
  destruct (add_memory_out_of_range content source i pa w Hout) as [kind Hrun].
  do 3 eexists. split; [exact Hrun|reflexivity].
Qed.

Lemma add_memory_invalid_leaves_agent_unmodified_at_11 :
  ¬ (1 ≤ 11 ≤ 10)
  ∧ ∃ loc kind w',
      PydanticAgent.add_memory "c" "s" (Some 11) (pydantic_agent0, world1)
      = (Raise (ValidationError "Memory" loc kind), (pydantic_agent0, w'))
      ∧ World.log_records w' = World.log_records world1.
Proof.
  split; [lia|].
  apply (add_memory_invalid_leaves_agent_unmodified pydantic_agent0 world1 "c" "s" 11).
  lia.
Defined.

(** C10: [PydanticAgent.add_memory] called without an importance returns
    and leaves [memories] equal to what it was followed by one new memory,
    whose importance is exactly 5, the default of the operation, and whose
    id, content and source are the uuid drawn and the arguments; no other
    list of the agent changes. A [Memory] built without an importance has
    the field default 1 instead. *)
Theorem add_memory_default_importance_is_5
    (pa : PydanticAgent.t) (w : World.t) (content source : string) :
  (∃ memory pa' w',
     PydanticAgent.add_memory content source None (pa, w)
     = (Return PyNone, (pa', w'))
     ∧ Agent.memories (PydanticAgent.agent_model pa')
       = Agent.memories (PydanticAgent.agent_model pa) ++ [memory]
     ∧ Memory.importance memory = 5
     ∧ Memory.id memory = World.uuid4_values w (World.uuid4_calls w)
     ∧ Memory.content memory = content
     ∧ Memory.source memory = source
     ∧ Agent.messages (PydanticAgent.agent_model pa')
       = Agent.messages (PydanticAgent.agent_model pa)
     ∧ Agent.thoughts (PydanticAgent.agent_model pa')
       = Agent.thoughts (PydanticAgent.agent_model pa)
     ∧ Agent.actions (PydanticAgent.agent_model pa')
       = Agent.actions (PydanticAgent.agent_model pa)
     ∧ Agent.available_tools (PydanticAgent.agent_model pa')
       = Agent.available_tools (PydanticAgent.agent_model pa))
  ∧ (∀ id w0, ∃ memory0 w1,
       Memory.new id content source None w0 = (Return memory0, w1)
       ∧ Memory.importance memory0 = 1).
Proof.
  split.
  - change (PydanticAgent.add_memory content source None)
      with (PydanticAgent.add_memory content source (Some 5)).
    rewrite (add_memory_in_range content source 5 pa w) by lia.
    do 3 eexists. split; [reflexivity|]. simpl. done.
  - intros id w0. do 2 eexists. split; [reflexivity|]. done.
Qed.

(** *** Creating the agent *)

(** C2, as the specification states it, fails here: the system prompt is
    empty, a key is supplied, and the constructor returns an agent whose
    seed message has the empty content. *)
Lemma init_accepts_empty_system_prompt :
  ∃ pa w',
    PydanticAgent.__init__ "A" "B" "" (Some "sk-test") world0 = (Return pa, w')
    ∧ Agent.messages (PydanticAgent.agent_model pa)
      = [Message.mk "system" "" 1700000000].
Proof.
  rewrite init_with_key by reflexivity.
  do 2 eexists. split; reflexivity.
Qed.

(** C2 (amended): the constructor does not look at the system prompt. For
    every system prompt, empty or not, it returns exactly when an API key is
    available: the [openai_api_key] argument when it is a non-empty string,
    the environment variable OPENAI_API_KEY otherwise. Without a key it
    raises a [ValueError] and changes nothing. *)
Theorem init_succeeds_iff_api_key_available
    (name description system_prompt : string) (key : option string) (w : World.t) :
  (returns (PydanticAgent.__init__ name description system_prompt key w).1
   ↔ truthy_opt (effective_key key w) = true)
  ∧ (truthy_opt (effective_key key w) = false →
     raises_ValueError (PydanticAgent.__init__ name description system_prompt key w).1
     ∧ (PydanticAgent.__init__ name description system_prompt key w).2 = w).
Proof.
  destruct (truthy_opt (effective_key key w)) eqn:Hkey.
  - rewrite (init_with_key _ _ _ _ _ Hkey). simpl. split.
    + split; [done|]. intros _. by eexists.
    + intros Hfalse. discriminate Hfalse.
  - rewrite (init_without_key _ _ _ _ _ Hkey). simpl. split.
    + split; [|intros Hfalse; discriminate Hfalse].
      intros [pa Hpa]. discriminate Hpa.
    + intros _. split; [by eexists | reflexivity].
Qed.

(** C3: whenever the constructor returns an agent, its [messages] hold
    exactly one entry, of role "system" and with the system prompt as
    content, and [available_tools], [memories], [thoughts] and [actions] are
    empty; and it does return one for every name, description and system
    prompt once an API key is available. *)
Theorem init_seeds_system_message
    (name description system_prompt : string) (key : option string) (w : World.t) :
  (∀ pa w',
     PydanticAgent.__init__ name description system_prompt key w = (Return pa, w') →
     (∃ ts, Agent.messages (PydanticAgent.agent_model pa)
            = [Message.mk "system" system_prompt ts])
     ∧ Agent.available_tools (PydanticAgent.agent_model pa) = []
     ∧ Agent.memories (PydanticAgent.agent_model pa) = []
     ∧ Agent.thoughts (PydanticAgent.agent_model pa) = []
     ∧ Agent.actions (PydanticAgent.agent_model pa) = [])
  ∧ (truthy_opt (effective_key key w) = true →
     returns (PydanticAgent.__init__ name description system_prompt key w).1).
Proof.
  destruct (truthy_opt (effective_key key w)) eqn:Hkey.
  - rewrite (init_with_key _ _ _ _ _ Hkey). split.
    + intros pa w' Hinit. injection Hinit as <- _. simpl.
      split; [by eexists|]. done.
    + intros _. by eexists.
  - rewrite (init_without_key _ _ _ _ _ Hkey). split.
    + intros pa w' Hinit. discriminate Hinit.
    + intros Hfalse. discriminate Hfalse.
Qed.

(** *** Appending messages *)

(** C4, as the specification states it, fails here: "tool" is none of
    system, user, assistant, and [add_message] returns normally, having
    appended a message of that role. *)
Lemma add_message_accepts_unlisted_role :
  ("tool" ∉ ["system"; "user"; "assistant"])
  ∧ (∃ a' w',
       Agent.add_message "tool" "x" (agent0, world1) = (Return PyNone, (a', w'))
       ∧ Message.role <$> Agent.messages a' = ["system"; "tool"]).
Proof.
  split.
  - intros Hin. repeat (apply elem_of_cons in Hin as [Heq|Hin]; [discriminate Heq|]).
    by apply elem_of_nil in Hin.
  - do 2 eexists. split; reflexivity.
Qed.

(** C4 (amended): [add_message] accepts every role string: for every role
    and content it returns (with [None]) and appends, at the end of
    [messages], one message with that role, that content and the current
    time; no other field of the agent changes. *)
Theorem add_message_accepts_every_role
    (role content : string) (a : Agent.t) (w : World.t) :
  ∃ m a' w',
    Agent.add_message role content (a, w) = (Return PyNone, (a', w'))
    ∧ Agent.messages a' = Agent.messages a ++ [m]
    ∧ Message.role m = role
    ∧ Message.content m = content
    ∧ Message.timestamp m = World.now_values w (World.now_calls w)
    ∧ Agent.id a' = Agent.id a
    ∧ Agent.name a' = Agent.name a
    ∧ Agent.description a' = Agent.description a
    ∧ Agent.available_tools a' = Agent.available_tools a
    ∧ Agent.memories a' = Agent.memories a
    ∧ Agent.thoughts a' = Agent.thoughts a
    ∧ Agent.actions a' = Agent.actions a.
Proof.
  do 3 eexists. split; [apply add_message_eq|]. simpl. done.
Qed.

(** *** Recording thoughts *)

(** C8, as the specification states it, fails here: [add_thought] appends
    the entry and hands back [None], which is not that entry. *)
Lemma add_thought_returns_none :
  ∃ entry a' w',
    Agent.add_thought "x" (agent0, world1) = (Return PyNone, (a', w'))
    ∧ Agent.thoughts a' = [entry]
    ∧ PyNone ≠ PyAgentThought entry.
Proof. do 3 eexists. split; [reflexivity|]. split; [reflexivity|]. discriminate. Qed.

(** C8 (amended): [add_thought] appends to the end of [thoughts] a new
    [AgentThought] with the given content and the current time, changes no
    other log, and returns [None]; the entry it created is the last element
    of [thoughts] afterwards. *)
Theorem add_thought_appends_and_returns_none
    (content : string) (a : Agent.t) (w : World.t) :
  ∃ entry a' w',
    Agent.add_thought content (a, w) = (Return PyNone, (a', w'))
    ∧ Agent.thoughts a' = Agent.thoughts a ++ [entry]
    ∧ last (Agent.thoughts a') = Some entry
    ∧ AgentThought.content entry = content
    ∧ AgentThought.timestamp entry = World.now_values w (World.now_calls w)
    ∧ Agent.messages a' = Agent.messages a
    ∧ Agent.memories a' = Agent.memories a
    ∧ Agent.actions a' = Agent.actions a
    ∧ Agent.available_tools a' = Agent.available_tools a.
Proof.
  do 3 eexists. split; [apply add_thought_eq|]. simpl.
  split; [reflexivity|]. split; [apply last_snoc|]. done.
Qed.

(** The agent a returning constructor call leaves has the seed as its only
    message. *)
Lemma init_messages name description system_prompt key w pa w0 :
  PydanticAgent.__init__ name description system_prompt key w = (Return pa, w0) →
  ∃ ts, Agent.messages (PydanticAgent.agent_model pa)
        = [Message.mk "system" system_prompt ts].
Proof.
  destruct (truthy_opt (effective_key key w)) eqn:Hkey.
  - rewrite (init_with_key _ _ _ _ _ Hkey). intros Hinit.
    injection Hinit as <- _. by eexists.
  - rewrite (init_without_key _ _ _ _ _ Hkey). intros Hinit. discriminate Hinit.
Qed.

(** A longer run of [add_message] calls keeps what a shorter one left. *)
Lemma add_messages_prefix (calls : list (string * string)) (k j : nat) a w :
  (k ≤ j)%nat →
  ∃ a_k w_k a_j w_j,
    add_messages (take k calls) (a, w) = (Return tt, (a_k, w_k))
    ∧ add_messages (take j calls) (a, w) = (Return tt, (a_j, w_j))
    ∧ (λ m, (Message.role m, Message.content m))
        <$> drop (length (Agent.messages a)) (Agent.messages a_k)
      = take k calls
    ∧ take (length (Agent.messages a)) (Agent.messages a_k) = Agent.messages a
    ∧ Agent.messages a_k `prefix_of` Agent.messages a_j.
Proof.
  intros Hkj.
  destruct (add_messages_run (take k calls) a w) as (new_k & w_k & Hk & Hnew_k).
  eexists _, w_k. 
  assert (take j calls = take k calls ++ drop k (take j calls)) as Hsplit.
  { rewrite <- (take_drop k (take j calls)) at 1.
    rewrite take_take. by rewrite Nat.min_l. }
  match type of Hk with _ = (_, (?ak, _)) =>
    destruct (add_messages_run (drop k (take j calls)) ak w_k)
      as (new_j & w_j & Hj & Hnew_j)
  end.
  eexists _, w_j. split; [exact Hk|]. split.
  - rewrite Hsplit. unfold add_messages in *. rewrite for_each_app.
    erewrite bind_Return by exact Hk. exact Hj.
  - simpl. split; [|split].
    + by rewrite drop_app_length.
    + by rewrite take_app_length.
    + by eexists.
Qed.

(** C7: on an agent the constructor returned, every run of [add_message]
    calls returns; after the first [k] calls [messages] has length [1 + k],
    begins with the system seed, and continues with one message per call, in
    order; and whatever [messages] held after [k] calls it still holds, at
    the same positions and unchanged, after any [j >= k] calls. *)
Theorem add_message_strictly_additive
    (name description system_prompt : string) (key : option string)
    (w w0 w1 : World.t) (pa : PydanticAgent.t)
    (calls : list (string * string)) (k j : nat) :
  PydanticAgent.__init__ name description system_prompt key w = (Return pa, w0) →
  (k ≤ j ≤ length calls)%nat →
  ∃ a_k w_k a_j w_j,
    add_messages (take k calls) (PydanticAgent.agent_model pa, w1)
    = (Return tt, (a_k, w_k))
    ∧ add_messages (take j calls) (PydanticAgent.agent_model pa, w1)
      = (Return tt, (a_j, w_j))
    ∧ length (Agent.messages a_k) = (1 + k)%nat
    ∧ length (Agent.messages a_j) = (1 + j)%nat
    ∧ (∃ ts, Agent.messages a_k !! 0%nat
             = Some (Message.mk "system" system_prompt ts))
    ∧ (λ m, (Message.role m, Message.content m)) <$> drop 1 (Agent.messages a_k)
      = take k calls
    ∧ (∀ i m, Agent.messages a_k !! i = Some m → Agent.messages a_j !! i = Some m).
Proof.
  intros Hinit [Hkj Hj].
  destruct (init_messages _ _ _ _ _ _ _ Hinit) as [ts Hseed].
  destruct (add_messages_prefix calls k j (PydanticAgent.agent_model pa) w1 Hkj)
    as (a_k & w_k & a_j & w_j & Hk & Hrun_j & Hnew & Hold & Hprefix).
  destruct (add_messages_prefix calls j j (PydanticAgent.agent_model pa) w1
              (Nat.le_refl j))
    as (a_j' & w_j' & a_j'' & w_j'' & Hj' & _ & Hnew_j & Hold_j & _).
  rewrite Hrun_j in Hj'. injection Hj' as Ha Hw. subst a_j' w_j'.
  rewrite Hseed in Hnew, Hold, Hnew_j, Hold_j. simpl in Hnew, Hold, Hnew_j, Hold_j.
  exists a_k, w_k, a_j, w_j.
  assert (∀ (n : nat) ms, (n ≤ length calls)%nat →
            take 1 ms = [Message.mk "system" system_prompt ts] →
            (λ m, (Message.role m, Message.content m)) <$> drop 1 ms = take n calls →
            length ms = (1 + n)%nat) as Hlen.
  { intros n ms Hn Htake Hdrop.
    rewrite <- (take_drop 1 ms), length_app, Htake. simpl. f_equal.
    rewrite <- (length_fmap (λ m, (Message.role m, Message.content m))), Hdrop.
    rewrite length_take. lia. }
  split; [exact Hk|]. split; [exact Hrun_j|].
  split; [apply Hlen; [lia|done..]|].
  split; [apply Hlen; [lia|done..]|].
  split.
  - exists ts. rewrite <- (take_drop 1 (Agent.messages a_k)), Hold. reflexivity.
  - split; [exact Hnew|].
    intros i m Hi. by eapply prefix_lookup_Some.
Qed.

Lemma add_message_strictly_additive_two_calls :
  PydanticAgent.__init__ "A" "B" "sys" None world0 = (Return pydantic_agent0, world1)
  ∧ (1 ≤ 2 ≤ length [("user", "Hello"); ("assistant", "Hi there")])%nat
  ∧ ∃ a_k w_k a_j w_j,
    add_messages (take 1 [("user", "Hello"); ("assistant", "Hi there")])
      (PydanticAgent.agent_model pydantic_agent0, world1)
    = (Return tt, (a_k, w_k))
    ∧ add_messages (take 2 [("user", "Hello"); ("assistant", "Hi there")])
        (PydanticAgent.agent_model pydantic_agent0, world1)
      = (Return tt, (a_j, w_j))
    ∧ length (Agent.messages a_k) = (1 + 1)%nat
    ∧ length (Agent.messages a_j) = (1 + 2)%nat
    ∧ (∃ ts, Agent.messages a_k !! 0%nat = Some (Message.mk "system" "sys" ts))
    ∧ (λ m, (Message.role m, Message.content m)) <$> drop 1 (Agent.messages a_k)
      = take 1 [("user", "Hello"); ("assistant", "Hi there")]
    ∧ (∀ i m, Agent.messages a_k !! i = Some m → Agent.messages a_j !! i = Some m).
Proof.
  assert (PydanticAgent.__init__ "A" "B" "sys" None world0
          = (Return pydantic_agent0, world1)) as Hinit.
  { rewrite init_with_key by reflexivity. reflexivity. }
  split; [exact Hinit|]. split; [simpl; lia|].
  apply (add_message_strictly_additive "A" "B" "sys" None world0 world1 world1
           pydantic_agent0 [("user", "Hello"); ("assistant", "Hi there")] 1 2 Hinit).
  simpl. lia.
Defined.

(** *** The end-to-end scenario *)

Example scenario_logs :
  Message.role <$> Agent.messages scenario_agent = ["system"; "user"; "assistant"]
  ∧ Memory.importance <$> Agent.memories scenario_agent = [7; 6]
  ∧ length (Agent.thoughts scenario_agent) = 1%nat
  ∧ AgentAction.action_type <$> Agent.actions scenario_agent = ["response"]
  ∧ Tool.name <$> Agent.available_tools scenario_agent
    = ["get_weather"; "web_search"; "calculator"; "get_time"].
Proof. vm_compute. done. Qed.

(** ** Beyond the specification: the rest of the store and the turn *)

(** *** Equations of the turn *)

Lemma on_agent_model_run {A} (c : Meth Agent.t A) pa w o a' w' :
  c (PydanticAgent.agent_model pa, w) = (o, (a', w')) →
  PydanticAgent.on_agent_model c (pa, w)
  = (o, (PydanticAgent.set_agent_model a' pa, w')).
Proof.
  intros Hc. unfold PydanticAgent.on_agent_model, zoom. simpl. by rewrite Hc.
Qed.

Lemma add_tool_eq tool pa w :
  PydanticAgent.add_tool tool (pa, w)
  = (Return PyNone,
     (PydanticAgent.set_agent_model
        (Agent.append_available_tools tool (PydanticAgent.agent_model pa)) pa,
      (World.logger_info ("Added tool: " +:+ Tool.name tool) w).2)).
Proof. reflexivity. Qed.

Lemma think_eq ext user_input pa w :
  Turn._think ext user_input (pa, w)
  = match External.chain_invoke ext (PydanticAgent.llm pa)
            (Turn.thinking_prompt (Turn._format_tools_for_prompt ext pa) user_input)
            w with
    | Return thought =>
        (Return thought,
         (PydanticAgent.set_agent_model
            (Agent.append_thoughts (AgentThought.mk thought (clock w 0))
               (PydanticAgent.agent_model pa)) pa,
          tick 1 w))
    | Raise e => (Raise e, (pa, w))
    end.
Proof. reflexivity. Qed.

Lemma process_user_input_eq ext user_input pa w :
  Turn.process_user_input ext user_input (pa, w)
  = match thinking_outcome ext pa w user_input with
    | Raise e => (Raise e, (after_user user_input pa w, tick 1 w))
    | Return thought =>
        match response_outcome ext pa w user_input with
        | Raise e => (Raise e, (after_thought user_input thought pa w, tick 2 w))
        | Return response =>
            (Return response,
             (after_response user_input thought response pa w, tick 4 w))
        end
    end.
Proof.
  unfold Turn.process_user_input. rewrite mbind_unfold.
  erewrite bind_Return by (apply on_agent_model_run; apply add_message_eq).
  rewrite mbind_unfold. unfold bind at 1. rewrite think_eq.
  match goal with
  | |- context [External.chain_invoke ?e ?l ?p ?w'] =>
      change (External.chain_invoke e l p w')
        with (thinking_outcome ext pa w user_input)
  end.
  destruct (thinking_outcome ext pa w user_input) as [thought|e]; [|reflexivity].
  destruct pa as [key llm [id name description tools msgs mems ths acts]].
  destruct msgs as [|first msgs]; reflexivity.
Qed.

Lemma format_tools_same_tools ext pa pa' :
  Agent.available_tools (PydanticAgent.agent_model pa')
  = Agent.available_tools (PydanticAgent.agent_model pa) →
  Turn._format_tools_for_prompt ext pa' = Turn._format_tools_for_prompt ext pa.
Proof. intros Htools. unfold Turn._format_tools_for_prompt. by rewrite Htools. Qed.

Lemma system_content_same_first pa pa' user_input :
  Agent.messages (PydanticAgent.agent_model pa') !! 0%nat
  = Agent.messages (PydanticAgent.agent_model pa) !! 0%nat →
  system_content pa' user_input = system_content pa user_input.
Proof.
  unfold system_content. intros Hfirst.
  destruct (Agent.messages (PydanticAgent.agent_model pa')) as [|m' ms'],
    (Agent.messages (PydanticAgent.agent_model pa)) as [|m ms];
    simpl in Hfirst; congruence.
Qed.

Lemma tick_tick a b w : tick a (tick b w) = tick (a + b) w.
Proof. unfold tick. simpl. f_equal. lia. Qed.

(** *** One turn *)

(** When the service answers both prompts, [process_user_input] returns the
    response and has recorded, in this order of the clock, the user message,
    the thought, the action of type "response" and the assistant message;
    memories and tools are untouched and nothing is logged. *)
Theorem process_user_input_records_turn
    (ext : External.t) (user_input : string) (pa : PydanticAgent.t) (w : World.t)
    (thought response : string) :
  thinking_outcome ext pa w user_input = Return thought →
  response_outcome ext pa w user_input = Return response →
  ∃ pa',
    Turn.process_user_input ext user_input (pa, w)
    = (Return response, (pa', tick 4 w))
    ∧ Agent.messages (PydanticAgent.agent_model pa')
      = Agent.messages (PydanticAgent.agent_model pa)
        ++ [Message.mk "user" user_input (clock w 0);
            Message.mk "assistant" response (clock w 3)]
    ∧ Agent.thoughts (PydanticAgent.agent_model pa')
      = Agent.thoughts (PydanticAgent.agent_model pa)
        ++ [AgentThought.mk thought (clock w 1)]
    ∧ Agent.actions (PydanticAgent.agent_model pa')
      = Agent.actions (PydanticAgent.agent_model pa)
        ++ [AgentAction.mk "response" (Some response) None None (clock w 2)]
    ∧ Agent.memories (PydanticAgent.agent_model pa')
      = Agent.memories (PydanticAgent.agent_model pa)
    ∧ Agent.available_tools (PydanticAgent.agent_model pa')
      = Agent.available_tools (PydanticAgent.agent_model pa).
Proof.
  intros Hthought Hresponse.
  exists (after_response user_input thought response pa w).
  rewrite process_user_input_eq, Hthought, Hresponse.
  split; [reflexivity|]. simpl. rewrite <- app_assoc. done.
Qed.

Lemma process_user_input_records_turn_hello :
  thinking_outcome ext0 pydantic_agent0 world1 "Hello" = Return "Greet the user back."
  ∧ response_outcome ext0 pydantic_agent0 world1 "Hello" = Return "Hi there"
  ∧ ∃ pa',
      Turn.process_user_input ext0 "Hello" (pydantic_agent0, world1)
      = (Return "Hi there", (pa', tick 4 world1))
      ∧ Agent.messages (PydanticAgent.agent_model pa')
        = Agent.messages (PydanticAgent.agent_model pydantic_agent0)
          ++ [Message.mk "user" "Hello" (clock world1 0);
              Message.mk "assistant" "Hi there" (clock world1 3)]
      ∧ Agent.thoughts (PydanticAgent.agent_model pa')
        = Agent.thoughts (PydanticAgent.agent_model pydantic_agent0)
          ++ [AgentThought.mk "Greet the user back." (clock world1 1)]
      ∧ Agent.actions (PydanticAgent.agent_model pa')
        = Agent.actions (PydanticAgent.agent_model pydantic_agent0)
          ++ [AgentAction.mk "response" (Some "Hi there") None None (clock world1 2)]
      ∧ Agent.memories (PydanticAgent.agent_model pa')
        = Agent.memories (PydanticAgent.agent_model pydantic_agent0)
      ∧ Agent.available_tools (PydanticAgent.agent_model pa')
        = Agent.available_tools (PydanticAgent.agent_model pydantic_agent0).
Proof.
  split; [reflexivity|]. split; [reflexivity|].
  apply (process_user_input_records_turn ext0 "Hello" pydantic_agent0 world1
           "Greet the user back." "Hi there"); reflexivity.
Defined.

(** When the service fails on the thinking prompt, [process_user_input]
    raises that exception with the user message already appended: the
    history keeps a user message with no thought, action or reply. *)
Theorem process_user_input_thinking_failure
    (ext : External.t) (user_input : string) (pa : PydanticAgent.t) (w : World.t)
    (e : Exn) :
  thinking_outcome ext pa w user_input = Raise e →
  ∃ pa',
    Turn.process_user_input ext user_input (pa, w) = (Raise e, (pa', tick 1 w))
    ∧ Agent.messages (PydanticAgent.agent_model pa')
      = Agent.messages (PydanticAgent.agent_model pa)
        ++ [Message.mk "user" user_input (clock w 0)]
    ∧ Agent.thoughts (PydanticAgent.agent_model pa')
      = Agent.thoughts (PydanticAgent.agent_model pa)
    ∧ Agent.actions (PydanticAgent.agent_model pa')
      = Agent.actions (PydanticAgent.agent_model pa)
    ∧ Agent.memories (PydanticAgent.agent_model pa')
      = Agent.memories (PydanticAgent.agent_model pa).
Proof.
  intros Hthought. exists (after_user user_input pa w).
  rewrite process_user_input_eq, Hthought. done.
Qed.

Lemma process_user_input_thinking_failure_down :
  thinking_outcome ext_down pydantic_agent0 world1 "Hello"
  = Raise (ValueError "connection refused")
  ∧ ∃ pa',
      Turn.process_user_input ext_down "Hello" (pydantic_agent0, world1)
      = (Raise (ValueError "connection refused"), (pa', tick 1 world1))
      ∧ Agent.messages (PydanticAgent.agent_model pa')
        = Agent.messages (PydanticAgent.agent_model pydantic_agent0)
          ++ [Message.mk "user" "Hello" (clock world1 0)]
      ∧ Agent.thoughts (PydanticAgent.agent_model pa')
        = Agent.thoughts (PydanticAgent.agent_model pydantic_agent0)
      ∧ Agent.actions (PydanticAgent.agent_model pa')
        = Agent.actions (PydanticAgent.agent_model pydantic_agent0)
      ∧ Agent.memories (PydanticAgent.agent_model pa')
        = Agent.memories (PydanticAgent.agent_model pydantic_agent0).
Proof.
  split; [reflexivity|].
  apply (process_user_input_thinking_failure ext_down "Hello" pydantic_agent0 world1
           (ValueError "connection refused")).
  reflexivity.
Defined.

(** When the service answers the thinking prompt and fails on the main
    prompt, [process_user_input] raises that exception with the user message
    and the thought recorded, and neither an action nor an assistant
    message. *)
Theorem process_user_input_response_failure
    (ext : External.t) (user_input : string) (pa : PydanticAgent.t) (w : World.t)
    (thought : string) (e : Exn) :
  thinking_outcome ext pa w user_input = Return thought →
  response_outcome ext pa w user_input = Raise e →
  ∃ pa',
    Turn.process_user_input ext user_input (pa, w) = (Raise e, (pa', tick 2 w))
    ∧ Agent.messages (PydanticAgent.agent_model pa')
      = Agent.messages (PydanticAgent.agent_model pa)
        ++ [Message.mk "user" user_input (clock w 0)]
    ∧ Agent.thoughts (PydanticAgent.agent_model pa')
      = Agent.thoughts (PydanticAgent.agent_model pa)
        ++ [AgentThought.mk thought (clock w 1)]
    ∧ Agent.actions (PydanticAgent.agent_model pa')
      = Agent.actions (PydanticAgent.agent_model pa)
    ∧ Agent.memories (PydanticAgent.agent_model pa')
      = Agent.memories (PydanticAgent.agent_model pa).
Proof.
  intros Hthought Hresponse. exists (after_thought user_input thought pa w).
  rewrite process_user_input_eq, Hthought, Hresponse. done.
Qed.

Lemma process_user_input_response_failure_half :
  thinking_outcome ext_half pydantic_agent0 world1 "Hello"
  = Return "Greet the user back."
  ∧ response_outcome ext_half pydantic_agent0 world1 "Hello"
    = Raise (ValueError "connection refused")
  ∧ ∃ pa',
      Turn.process_user_input ext_half "Hello" (pydantic_agent0, world1)
      = (Raise (ValueError "connection refused"), (pa', tick 2 world1))
      ∧ Agent.messages (PydanticAgent.agent_model pa')
        = Agent.messages (PydanticAgent.agent_model pydantic_agent0)
          ++ [Message.mk "user" "Hello" (clock world1 0)]
      ∧ Agent.thoughts (PydanticAgent.agent_model pa')
        = Agent.thoughts (PydanticAgent.agent_model pydantic_agent0)
          ++ [AgentThought.mk "Greet the user back." (clock world1 1)]
      ∧ Agent.actions (PydanticAgent.agent_model pa')
        = Agent.actions (PydanticAgent.agent_model pydantic_agent0)
      ∧ Agent.memories (PydanticAgent.agent_model pa')
        = Agent.memories (PydanticAgent.agent_model pydantic_agent0).
Proof.
  split; [reflexivity|]. split; [reflexivity|].
  apply (process_user_input_response_failure ext_half "Hello" pydantic_agent0 world1
           "Greet the user back." (ValueError "connection refused")); reflexivity.
Defined.

(** [process_user_input] returns exactly when the service answers both
    prompts, what it returns is the answer to the main prompt, and an
    exception it raises is one the service raised: building the messages, the
    thought and the action never fails, and neither does [messages[0]], the
    user message having been appended before. *)
Theorem process_user_input_fails_only_with_service
    (ext : External.t) (user_input : string) (pa : PydanticAgent.t) (w : World.t) :
  (returns (Turn.process_user_input ext user_input (pa, w)).1
   ↔ returns (thinking_outcome ext pa w user_input)
     ∧ returns (response_outcome ext pa w user_input))
  ∧ (∀ response,
       (Turn.process_user_input ext user_input (pa, w)).1 = Return response →
       response_outcome ext pa w user_input = Return response)
  ∧ (∀ e,
       (Turn.process_user_input ext user_input (pa, w)).1 = Raise e →
       thinking_outcome ext pa w user_input = Raise e
       ∨ response_outcome ext pa w user_input = Raise e).
Proof.
  rewrite process_user_input_eq.
  destruct (thinking_outcome ext pa w user_input) as [thought|e1],
    (response_outcome ext pa w user_input) as [response|e2]; simpl.
  - split; [|split].
    + split; [intros _; split; by eexists | intros _; by eexists].
    + intros r Hr. exact Hr.
    + intros e He. discriminate He.
  - split; [|split].
    + split; [intros [r Hr]; discriminate Hr | intros [_ [r Hr]]; discriminate Hr].
    + intros r Hr. discriminate Hr.
    + intros e He. by right.
  - split; [|split].
    + split; [intros [r Hr]; discriminate Hr | intros [[r Hr] _]; discriminate Hr].
    + intros r Hr. discriminate Hr.
    + intros e He. by left.
  - split; [|split].
    + split; [intros [r Hr]; discriminate Hr | intros [[r Hr] _]; discriminate Hr].
    + intros r Hr. discriminate Hr.
    + intros e He. by left.
Qed.

(** The prompts of a turn are built from the client, the tools, the content
    of the first message and the user input only: two agents that agree on
    these get the same outcome from [process_user_input] in the same world,
    whatever their later messages, memories, thoughts and actions are. *)
Theorem process_user_input_ignores_history
    (ext : External.t) (user_input : string) (pa pa' : PydanticAgent.t)
    (w : World.t) :
  PydanticAgent.llm pa' = PydanticAgent.llm pa →
  Agent.available_tools (PydanticAgent.agent_model pa')
  = Agent.available_tools (PydanticAgent.agent_model pa) →
  Agent.messages (PydanticAgent.agent_model pa') !! 0%nat
  = Agent.messages (PydanticAgent.agent_model pa) !! 0%nat →
  (Turn.process_user_input ext user_input (pa', w)).1
  = (Turn.process_user_input ext user_input (pa, w)).1.
Proof.
  intros Hllm Htools Hfirst. rewrite !process_user_input_eq.
  unfold thinking_outcome, response_outcome.
  rewrite Hllm, (format_tools_same_tools ext pa pa' Htools),
    (system_content_same_first pa pa' user_input Hfirst).
  destruct (External.chain_invoke ext (PydanticAgent.llm pa)
              (Turn.thinking_prompt (Turn._format_tools_for_prompt ext pa) user_input)
              (tick 1 w)) as [thought|e]; [|reflexivity].
  destruct (External.chain_invoke ext (PydanticAgent.llm pa)
              (Turn.main_prompt (system_content pa user_input)
                 (Turn._format_tools_for_prompt ext pa) user_input)
              (tick 2 w)); reflexivity.
Qed.

Lemma process_user_input_ignores_history_earlier_exchange :
  PydanticAgent.llm pydantic_agent1 = PydanticAgent.llm pydantic_agent0
  ∧ Agent.available_tools (PydanticAgent.agent_model pydantic_agent1)
    = Agent.available_tools (PydanticAgent.agent_model pydantic_agent0)
  ∧ Agent.messages (PydanticAgent.agent_model pydantic_agent1) !! 0%nat
    = Agent.messages (PydanticAgent.agent_model pydantic_agent0) !! 0%nat
  ∧ (Turn.process_user_input ext0 "Who am I?" (pydantic_agent1, world1)).1
    = (Turn.process_user_input ext0 "Who am I?" (pydantic_agent0, world1)).1.
Proof.
  split; [reflexivity|]. split; [reflexivity|]. split; [reflexivity|].
  apply (process_user_input_ignores_history ext0 "Who am I?"
           pydantic_agent0 pydantic_agent1 world1); reflexivity.
Defined.

(** *** Runs of turns *)

Lemma process_user_inputs_run_aux ext user_inputs :
  (∀ llm prompt w0, returns (External.chain_invoke ext llm prompt w0)) →
  ∀ pa w,
  ∃ responses pa' new new_actions,
    process_user_inputs ext user_inputs (pa, w)
    = (Return tt, (pa', tick (4 * length user_inputs) w))
    ∧ length responses = length user_inputs
    ∧ Agent.messages (PydanticAgent.agent_model pa')
      = Agent.messages (PydanticAgent.agent_model pa) ++ new
    ∧ (λ m, (Message.role m, Message.content m)) <$> new
      = exchange (zip user_inputs responses)
    ∧ Agent.actions (PydanticAgent.agent_model pa')
      = Agent.actions (PydanticAgent.agent_model pa) ++ new_actions
    ∧ (λ a, (AgentAction.action_type a, AgentAction.content a)) <$> new_actions
      = (λ r, ("response", Some r)) <$> responses
    ∧ length (Agent.thoughts (PydanticAgent.agent_model pa'))
      = (length (Agent.thoughts (PydanticAgent.agent_model pa))
         + length user_inputs)%nat
    ∧ Agent.memories (PydanticAgent.agent_model pa')
      = Agent.memories (PydanticAgent.agent_model pa)
    ∧ Agent.available_tools (PydanticAgent.agent_model pa')
      = Agent.available_tools (PydanticAgent.agent_model pa).
Proof.
  intros Htotal.
  induction user_inputs as [|user_input user_inputs IH]; intros pa w.
  - eexists [], pa, [], []. rewrite !app_nil_r. simpl.
    split; [by destruct w|]. repeat split; lia.
  - destruct (Htotal (PydanticAgent.llm pa)
                (Turn.thinking_prompt (Turn._format_tools_for_prompt ext pa) user_input)
                (tick 1 w)) as [thought Hthought].
    destruct (Htotal (PydanticAgent.llm pa)
                (Turn.main_prompt (system_content pa user_input)
                   (Turn._format_tools_for_prompt ext pa) user_input)
                (tick 2 w)) as [response Hresponse].
    destruct (IH (after_response user_input thought response pa w) (tick 4 w))
      as (responses & pa' & new & new_actions & Hrun & Hlen & Hmsgs & Hnew
          & Hacts & Hnew_actions & Hths & Hmems & Htools).
    exists (response :: responses), pa',
      (Message.mk "user" user_input (clock w 0)
       :: Message.mk "assistant" response (clock w 3) :: new),
      (AgentAction.mk "response" (Some response) None None (clock w 2)
       :: new_actions).
    split.
    { unfold process_user_inputs in *. simpl.
      erewrite bind_Return; last first.
      { rewrite process_user_input_eq. unfold thinking_outcome, response_outcome.
        rewrite Hthought, Hresponse. reflexivity. }
      rewrite Hrun, tick_tick. do 3 f_equal. lia. }
    split; [simpl; by rewrite Hlen|].
    split; [rewrite Hmsgs; simpl; by rewrite <- !app_assoc|].
    split; [rewrite !fmap_cons, Hnew; reflexivity|].
    split; [rewrite Hacts; simpl; by rewrite <- !app_assoc|].
    split; [rewrite !fmap_cons, Hnew_actions; reflexivity|].
    split; [rewrite Hths; simpl; rewrite length_app; simpl; lia|].
    split; [by rewrite Hmems | by rewrite Htools].
Qed.

(** With a service that always answers, a run of turns over a list of user
    inputs returns, and adds to [messages] a user message and an assistant
    message per input, in order; one action of type "response" per input,
    whose content is the reply of the assistant message of that turn; and
    one thought per input. Each turn reads the clock four times. *)
Theorem process_user_inputs_run
    (ext : External.t) (user_inputs : list string) (pa : PydanticAgent.t)
    (w : World.t) :
  (∀ llm prompt w0, returns (External.chain_invoke ext llm prompt w0)) →
  ∃ responses pa' new new_actions,
    process_user_inputs ext user_inputs (pa, w)
    = (Return tt, (pa', tick (4 * length user_inputs) w))
    ∧ length responses = length user_inputs
    ∧ Agent.messages (PydanticAgent.agent_model pa')
      = Agent.messages (PydanticAgent.agent_model pa) ++ new
    ∧ (λ m, (Message.role m, Message.content m)) <$> new
      = exchange (zip user_inputs responses)
    ∧ Agent.actions (PydanticAgent.agent_model pa')
      = Agent.actions (PydanticAgent.agent_model pa) ++ new_actions
    ∧ (λ a, (AgentAction.action_type a, AgentAction.content a)) <$> new_actions
      = (λ r, ("response", Some r)) <$> responses
    ∧ length (Agent.thoughts (PydanticAgent.agent_model pa'))
      = (length (Agent.thoughts (PydanticAgent.agent_model pa))
         + length user_inputs)%nat
    ∧ Agent.memories (PydanticAgent.agent_model pa')
      = Agent.memories (PydanticAgent.agent_model pa)
    ∧ Agent.available_tools (PydanticAgent.agent_model pa')
      = Agent.available_tools (PydanticAgent.agent_model pa).
Proof. intros Htotal. by apply process_user_inputs_run_aux. Qed.

Lemma ext0_always_answers llm prompt w0 :
  returns (External.chain_invoke ext0 llm prompt w0).
Proof.
  simpl. destruct prompt as [|[content|content|content] prompt]; try by eexists.
  destruct (decide (content = "sys")) as [->|Hne]; [by eexists|].
  repeat (let a := fresh "a" in
          destruct content as [|a content]; [by eexists|];
          destruct a as [[] [] [] [] [] [] [] []]; try by eexists).
Qed.

Lemma process_user_inputs_run_two_turns :
  (∀ llm prompt w0, returns (External.chain_invoke ext0 llm prompt w0))
  ∧ ∃ responses pa' new new_actions,
      process_user_inputs ext0 ["Hello"; "Bye"] (pydantic_agent0, world1)
      = (Return tt, (pa', tick (4 * length ["Hello"; "Bye"]) world1))
      ∧ length responses = length ["Hello"; "Bye"]
      ∧ Agent.messages (PydanticAgent.agent_model pa')
        = Agent.messages (PydanticAgent.agent_model pydantic_agent0) ++ new
      ∧ (λ m, (Message.role m, Message.content m)) <$> new
        = exchange (zip ["Hello"; "Bye"] responses)
      ∧ Agent.actions (PydanticAgent.agent_model pa')
        = Agent.actions (PydanticAgent.agent_model pydantic_agent0) ++ new_actions
      ∧ (λ a, (AgentAction.action_type a, AgentAction.content a)) <$> new_actions
        = (λ r, ("response", Some r)) <$> responses
      ∧ length (Agent.thoughts (PydanticAgent.agent_model pa'))
        = (length (Agent.thoughts (PydanticAgent.agent_model pydantic_agent0))
           + length ["Hello"; "Bye"])%nat
      ∧ Agent.memories (PydanticAgent.agent_model pa')
        = Agent.memories (PydanticAgent.agent_model pydantic_agent0)
      ∧ Agent.available_tools (PydanticAgent.agent_model pa')
        = Agent.available_tools (PydanticAgent.agent_model pydantic_agent0).
Proof.
  split; [exact ext0_always_answers|].
  apply (process_user_inputs_run ext0 ["Hello"; "Bye"] pydantic_agent0 world1).
  exact ext0_always_answers.
Defined.

(** *** What no call undoes *)

Lemma run_discard {Σ A} (c : Py Σ A) (σ : Σ) :
  ((c ≫= λ _, ret tt) σ).2 = (c σ).2.
Proof.
  rewrite mbind_unfold. unfold bind. by destruct (c σ) as [[a|e] σ'].
Qed.

Lemma add_memory_default content source :
  PydanticAgent.add_memory content source None
  = PydanticAgent.add_memory content source (Some 5).
Proof. reflexivity. Qed.

Lemma grown_nil pa : grown pa [] [] [] [] [] = pa.
Proof.
  destruct pa as [key llm [id name description tools msgs mems ths acts]].
  unfold grown. simpl. by rewrite !app_nil_r.
Qed.

Lemma add_memory_grows content source i pa w :
  ∃ mems w',
    (PydanticAgent.add_memory content source (Some i) (pa, w)).2
    = (grown pa [] [] mems [] [], w')
    ∧ Forall (λ m, 1 ≤ Memory.importance m ≤ 10) mems
    ∧ World.environ w' = World.environ w
    ∧ World.log_records w `prefix_of` World.log_records w'
    ∧ (World.uuid4_calls w ≤ World.uuid4_calls w')%nat
    ∧ (World.now_calls w ≤ World.now_calls w')%nat.
Proof.
  destruct (decide (1 ≤ i ≤ 10)) as [Hin|Hout].
  - rewrite (add_memory_in_range content source i pa w Hin).
    eexists [_], _. split.
    + destruct pa as [key llm [id name description tools msgs mems ths acts]].
      unfold grown. simpl. rewrite !app_nil_r. reflexivity.
    + simpl. split; [by apply Forall_singleton|]. split; [done|].
      split; [by apply prefix_app_r|]. lia.
  - destruct (add_memory_out_of_range content source i pa w Hout) as [kind Hrun].
    rewrite Hrun. eexists [], _. split.
    + by rewrite grown_nil.
    + simpl. split; [by apply Forall_nil|]. split; [done|]. split; [done|]. lia.
Qed.

(** Whatever the call and however it ends, the agent it leaves is the agent
    it found with more at the end of its lists, the memories added being
    valid, and the world has only moved forward. *)
Lemma run_call_grows ext c pa w :
  ∃ tools msgs mems ths acts w',
    (run_call ext c (pa, w)).2 = (grown pa tools msgs mems ths acts, w')
    ∧ Forall (λ m, 1 ≤ Memory.importance m ≤ 10) mems
    ∧ World.environ w' = World.environ w
    ∧ World.log_records w `prefix_of` World.log_records w'
    ∧ (World.uuid4_calls w ≤ World.uuid4_calls w')%nat
    ∧ (World.now_calls w ≤ World.now_calls w')%nat.
Proof.
  destruct c as [tool|content source importance|user_input|role content|content|action];
    unfold run_call; rewrite run_discard.
  - rewrite add_tool_eq. eexists [tool], [], [], [], [], _. split.
    + destruct pa as [key llm [id name description tools msgs mems ths acts]].
      unfold grown. simpl. rewrite !app_nil_r. reflexivity.
    + simpl. split; [by apply Forall_nil|]. split; [done|].
      split; [by apply prefix_app_r|]. lia.
  - destruct (add_memory_grows content source (default 5 importance) pa w)
      as (mems & w' & Hrun & Hrest).
    eexists [], [], mems, [], [], w'. split; [|exact Hrest].
    rewrite <- Hrun. by destruct importance.
  - rewrite process_user_input_eq.
    destruct (thinking_outcome ext pa w user_input) as [thought|e];
      [destruct (response_outcome ext pa w user_input) as [response|e]|].
    + eexists [], [Message.mk "user" user_input (clock w 0);
                  Message.mk "assistant" response (clock w 3)],
        [], [AgentThought.mk thought (clock w 1)],
        [AgentAction.mk "response" (Some response) None None (clock w 2)], _.
      split.
      * destruct pa as [key llm [id name description tools msgs mems ths acts]].
        unfold grown, after_response, after_thought, after_user,
          PydanticAgent.set_agent_model, Agent.append_messages,
          Agent.append_actions, Agent.append_thoughts. simpl.
        rewrite !app_nil_r, <- app_assoc. reflexivity.
      * simpl. split; [by apply Forall_nil|]. split; [done|]. split; [done|]. lia.
    + eexists [], [Message.mk "user" user_input (clock w 0)],
        [], [AgentThought.mk thought (clock w 1)], [], _.
      split.
      * destruct pa as [key llm [id name description tools msgs mems ths acts]].
        unfold grown, after_thought, after_user. simpl.
        rewrite !app_nil_r. reflexivity.
      * simpl. split; [by apply Forall_nil|]. split; [done|]. split; [done|]. lia.
    + eexists [], [Message.mk "user" user_input (clock w 0)], [], [], [], _.
      split.
      * destruct pa as [key llm [id name description tools msgs mems ths acts]].
        unfold grown, after_thought, after_user. simpl.
        rewrite !app_nil_r. reflexivity.
      * simpl. split; [by apply Forall_nil|]. split; [done|]. split; [done|]. lia.
  - erewrite on_agent_model_run by apply add_message_eq.
    eexists [], [Message.mk role content (clock w 0)], [], [], [], _. split.
    + destruct pa as [key llm [id name description tools msgs mems ths acts]].
      unfold grown. simpl. rewrite !app_nil_r. reflexivity.
    + simpl. split; [by apply Forall_nil|]. split; [done|]. split; [done|]. lia.
  - erewrite on_agent_model_run by apply add_thought_eq.
    eexists [], [], [], [AgentThought.mk content (clock w 0)], [], _. split.
    + destruct pa as [key llm [id name description tools msgs mems ths acts]].
      unfold grown. simpl. rewrite !app_nil_r. reflexivity.
    + simpl. split; [by apply Forall_nil|]. split; [done|]. split; [done|]. lia.
  - eexists [], [], [], [], [action], w. split.
    + destruct pa as [key llm [id name description tools msgs mems ths acts]].
      unfold grown. simpl. rewrite !app_nil_r. reflexivity.
    + split; [by apply Forall_nil|]. split; [done|]. split; [done|]. lia.
Qed.

Lemma extends_trans σ1 σ2 σ3 : extends σ1 σ2 → extends σ2 σ3 → extends σ1 σ3.
Proof.
  unfold extends.
  intros (Hk & Hl & Hid & Hn & Hd & Ht & Hm & Hme & Hth & Ha & Hlog & He & Hu & Hc)
         (Hk' & Hl' & Hid' & Hn' & Hd' & Ht' & Hm' & Hme' & Hth' & Ha' & Hlog' & He'
          & Hu' & Hc').
  repeat split; try congruence; try (by etrans); lia.
Qed.

Lemma step_extends ext σ σ' : step ext σ σ' → extends σ σ'.
Proof.
  destruct σ as [pa w]. intros [c <-].
  destruct (run_call_grows ext c pa w)
    as (tools & msgs & mems & ths & acts & w' & -> & _ & Henv & Hlog & Hu & Hc).
  unfold extends, grown. simpl.
  repeat split; try done; by apply prefix_app_r.
Qed.

Lemma rtc_step_extends ext σ σ' : rtc (step ext) σ σ' → extends σ σ'.
Proof.
  induction 1 as [σ|σ1 σ2 σ3 Hstep _ IH].
  - unfold extends. repeat split; done.
  - eapply extends_trans; [by eapply step_extends|exact IH].
Qed.

Lemma step_importances_valid ext σ σ' :
  step ext σ σ' → importances_valid σ → importances_valid σ'.
Proof.
  destruct σ as [pa w]. intros [c <-] Hvalid.
  destruct (run_call_grows ext c pa w)
    as (tools & msgs & mems & ths & acts & w' & -> & Hmems & _).
  unfold importances_valid, grown in *. simpl in *. by apply Forall_app.
Qed.

(** Over any sequence of calls, returning or raising, the agent keeps its
    key, client, id, name and description; each of its five lists, and the
    log, only grows at its end; the environment is not written; the uuid
    source and the clock only advance. *)
Theorem calls_only_extend (ext : External.t) (σ σ' : PydanticAgent.t * World.t) :
  rtc (step ext) σ σ' → extends σ σ'.
Proof. apply rtc_step_extends. Qed.

Lemma calls_only_extend_failed_turn :
  rtc (step ext_down) (pydantic_agent0, world1)
    (run_call ext_down (call_process_user_input "Hello")
       (run_call ext_down (call_add_memory "c" "s" (Some 11))
          (pydantic_agent0, world1)).2).2
  ∧ extends (pydantic_agent0, world1)
      (run_call ext_down (call_process_user_input "Hello")
         (run_call ext_down (call_add_memory "c" "s" (Some 11))
            (pydantic_agent0, world1)).2).2.
Proof.
  assert (rtc (step ext_down) (pydantic_agent0, world1)
            (run_call ext_down (call_process_user_input "Hello")
               (run_call ext_down (call_add_memory "c" "s" (Some 11))
                  (pydantic_agent0, world1)).2).2) as Hrtc.
  { eapply rtc_l; [by eexists|]. eapply rtc_l; [by eexists|]. apply rtc_refl. }
  split; [exact Hrtc|].
  exact (calls_only_extend ext_down _ _ Hrtc).
Defined.

(** Over any sequence of calls, if every memory of the agent has its
    importance within 1..10, so has every memory afterwards. *)
Theorem calls_keep_importances_valid
    (ext : External.t) (σ σ' : PydanticAgent.t * World.t) :
  rtc (step ext) σ σ' → importances_valid σ → importances_valid σ'.
Proof.
  induction 1 as [σ|σ1 σ2 σ3 Hstep _ IH]; [done|].
  intros Hvalid. apply IH. by eapply step_importances_valid.
Qed.

Lemma calls_keep_importances_valid_two_memories :
  rtc (step ext0) (pydantic_agent0, world1)
    (run_call ext0 (call_add_memory "b" "s" (Some 0))
       (run_call ext0 (call_add_memory "a" "s" (Some 7))
          (pydantic_agent0, world1)).2).2
  ∧ importances_valid (pydantic_agent0, world1)
  ∧ importances_valid
      (run_call ext0 (call_add_memory "b" "s" (Some 0))
         (run_call ext0 (call_add_memory "a" "s" (Some 7))
            (pydantic_agent0, world1)).2).2.
Proof.
  assert (rtc (step ext0) (pydantic_agent0, world1)
            (run_call ext0 (call_add_memory "b" "s" (Some 0))
               (run_call ext0 (call_add_memory "a" "s" (Some 7))
                  (pydantic_agent0, world1)).2).2) as Hrtc.
  { eapply rtc_l; [by eexists|]. eapply rtc_l; [by eexists|]. apply rtc_refl. }
  assert (importances_valid (pydantic_agent0, world1)) as Hvalid.
  { apply Forall_nil. done. }
  split; [exact Hrtc|]. split; [exact Hvalid|].
  exact (calls_keep_importances_valid ext0 _ _ Hrtc Hvalid).
Defined.

(** On an agent the constructor returned, after any sequence of calls the
    first message is still the system message it was seeded with, and a
    later turn hands the service, as its main prompt, the system prompt as
    system message followed by the tools and the user input: what
    [process_user_input] ends with is what the service does with the
    thinking prompt when that fails, and with this main prompt otherwise. *)
Theorem system_prompt_stays_first
    (ext : External.t) (name description system_prompt : string)
    (key : option string) (w w0 : World.t) (pa : PydanticAgent.t)
    (σ' : PydanticAgent.t * World.t) :
  PydanticAgent.__init__ name description system_prompt key w = (Return pa, w0) →
  rtc (step ext) (pa, w0) σ' →
  (∃ ts, Agent.messages (PydanticAgent.agent_model σ'.1) !! 0%nat
         = Some (Message.mk "system" system_prompt ts))
  ∧ (∀ user_input, system_content σ'.1 user_input = system_prompt)
  ∧ (∀ user_input,
       (Turn.process_user_input ext user_input σ').1
       = match
           External.chain_invoke ext (PydanticAgent.llm σ'.1)
             [ SystemMessage
                 ("You are an AI assistant thinking step by step about how to respond to a user. "
                  +:+ "Think through what tools might be useful and how to structure your response.");
               HumanMessage
                 ("User input: " +:+ user_input +:+ nl +:+ nl +:+
                  "Available tools:" +:+ nl +:+
                  Turn._format_tools_for_prompt ext σ'.1 +:+ nl +:+ nl +:+
                  "Think step by step about how to respond to this user request.") ]
             (tick 1 σ'.2)
         with
         | Raise e => Raise e
         | Return _ =>
             External.chain_invoke ext (PydanticAgent.llm σ'.1)
               [ SystemMessage system_prompt;
                 HumanMessage
                   ("Available tools:" +:+ nl +:+
                    Turn._format_tools_for_prompt ext σ'.1 +:+ nl +:+ nl +:+
                    "User input: " +:+ user_input) ]
               (tick 2 σ'.2)
         end).
Proof.
  intros Hinit Hrtc.
  destruct (init_messages _ _ _ _ _ _ _ Hinit) as [ts Hseed].
  destruct (rtc_step_extends ext _ _ Hrtc) as (_ & _ & _ & _ & _ & _ & Hmsgs & _).
  simpl in Hmsgs. rewrite Hseed in Hmsgs. destruct Hmsgs as [more Hmsgs].
  assert (∀ user_input, system_content σ'.1 user_input = system_prompt) as Hcontent.
  { intros user_input. unfold system_content. by rewrite Hmsgs. }
  split; [exists ts; by rewrite Hmsgs|]. split; [exact Hcontent|].
  intros user_input. destruct σ' as [pa' w']. simpl in *.
  rewrite process_user_input_eq. unfold thinking_outcome, response_outcome.
  rewrite Hcontent. unfold Turn.thinking_prompt, Turn.main_prompt.
  match goal with
  | |- context [match ?o with Return _ => _ | Raise _ => _ end] =>
      destruct o as [thought|e]; [|reflexivity]
  end.
  match goal with
  | |- context [match ?o with Return _ => _ | Raise _ => _ end] =>
      destruct o as [response|e]; reflexivity
  end.
Qed.

Lemma system_prompt_stays_first_after_turn :
  PydanticAgent.__init__ "A" "B" "sys" None world0 = (Return pydantic_agent0, world1)
  ∧ rtc (step ext0) (pydantic_agent0, world1)
      (run_call ext0 (call_process_user_input "Hello") (pydantic_agent0, world1)).2
  ∧ (∃ ts, Agent.messages (PydanticAgent.agent_model
             (run_call ext0 (call_process_user_input "Hello")
                (pydantic_agent0, world1)).2.1) !! 0%nat
           = Some (Message.mk "system" "sys" ts))
  ∧ (∀ user_input,
       system_content
         (run_call ext0 (call_process_user_input "Hello") (pydantic_agent0, world1)).2.1
         user_input
       = "sys")
  ∧ (Turn.process_user_input ext0 "Bye"
       (run_call ext0 (call_process_user_input "Hello") (pydantic_agent0, world1)).2).1
    = Return "Hi there".
Proof.
  assert (PydanticAgent.__init__ "A" "B" "sys" None world0
          = (Return pydantic_agent0, world1)) as Hinit.
  { rewrite init_with_key by reflexivity. reflexivity. }
  assert (rtc (step ext0) (pydantic_agent0, world1)
            (run_call ext0 (call_process_user_input "Hello")
               (pydantic_agent0, world1)).2) as Hrtc.
  { eapply rtc_l; [by eexists|]. apply rtc_refl. }
  split; [exact Hinit|]. split; [exact Hrtc|].
  destruct (system_prompt_stays_first ext0 "A" "B" "sys" None world0 world1
              pydantic_agent0 _ Hinit Hrtc) as (Hfirst & Hcontent & Hturn).
  split; [exact Hfirst|]. split; [exact Hcontent|].
  rewrite (Hturn "Bye"). reflexivity.
Defined.

(** *** The store, beyond single calls *)

Lemma foldl_snoc {A B} (f : A → B) (xs : list A) (acc : list B) :
  foldl (λ acc x, acc ++ [f x]) acc xs = acc ++ (f <$> xs).
Proof.
  revert acc. induction xs as [|x xs IH]; intros acc; simpl.
  - by rewrite app_nil_r.
  - rewrite IH, <- app_assoc. reflexivity.
Qed.

(** [add_tool] never refuses a tool: a run of [add_tool] calls returns,
    appends the tools to [available_tools] in the order of the calls,
    duplicates included, logs one record per tool, and touches neither the
    other lists nor the uuid source or the clock. *)
Theorem add_tools_run (tools : list Tool.t) (pa : PydanticAgent.t) (w : World.t) :
  ∃ pa' w',
    add_tools tools (pa, w) = (Return tt, (pa', w'))
    ∧ pa' = grown pa tools [] [] [] []
    ∧ World.log_records w'
      = World.log_records w ++ ((λ tool, "Added tool: " +:+ Tool.name tool) <$> tools)
    ∧ World.uuid4_calls w' = World.uuid4_calls w
    ∧ World.now_calls w' = World.now_calls w.
Proof.
  revert pa w. induction tools as [|tool tools IH]; intros pa w.
  - exists pa, w. rewrite grown_nil, app_nil_r. done.
  - destruct (IH (PydanticAgent.set_agent_model
                    (Agent.append_available_tools tool (PydanticAgent.agent_model pa))
                    pa)
                 (World.logger_info ("Added tool: " +:+ Tool.name tool) w).2)
      as (pa' & w' & Hrun & Hpa' & Hlog & Hu & Hc).
    exists pa', w'. split.
    { unfold add_tools in *. simpl.
      erewrite bind_Return by apply add_tool_eq. exact Hrun. }
    split.
    { rewrite Hpa'.
      destruct pa as [key llm [id name description ts msgs mems ths acts]].
      unfold grown. simpl. rewrite !app_nil_r, <- app_assoc. reflexivity. }
    split; [|done].
    rewrite Hlog. simpl. by rewrite <- app_assoc.
Qed.

Lemma add_memories_run_aux specs :
  Forall (λ spec : string * string * Z, 1 ≤ spec.2 ≤ 10) specs →
  ∀ pa w,
  ∃ new pa' w',
    add_memories specs (pa, w) = (Return tt, (pa', w'))
    ∧ pa' = grown pa [] [] new [] []
    ∧ (λ m, (Memory.content m, Memory.source m, Memory.importance m)) <$> new = specs
    ∧ Memory.id <$> new = uuid_at w <$> seq 0 (length specs)
    ∧ World.log_records w'
      = World.log_records w ++ ((λ m, "Added memory: " +:+ Memory.id m) <$> new)
    ∧ World.uuid4_values w' = World.uuid4_values w
    ∧ World.uuid4_calls w' = (length specs + World.uuid4_calls w)%nat.
Proof.
  induction 1 as [|[[content source] i] specs Hi _ IH]; intros pa w.
  - exists [], pa, w. rewrite grown_nil, app_nil_r. done.
  - simpl in Hi.
    pose proof (add_memory_in_range content source i pa w Hi) as Hfirst.
    simpl in Hfirst.
    match type of Hfirst with
    | _ = (_, (?pa1, ?w1)) =>
        destruct (IH pa1 w1)
          as (new & pa' & w' & Hrun & Hpa' & Hnew & Hids & Hlog & Hvals & Hcalls)
    end.
    eexists (_ :: new), pa', w'. split.
    { unfold add_memories in *. simpl.
      erewrite bind_Return by exact Hfirst. exact Hrun. }
    split.
    { rewrite Hpa'.
      destruct pa as [key llm [id name description ts msgs mems ths acts]].
      unfold grown. simpl. rewrite !app_nil_r, <- app_assoc. reflexivity. }
    split; [by rewrite fmap_cons, Hnew|].
    split.
    { rewrite fmap_cons, Hids. simpl. f_equal.
      rewrite <- fmap_S_seq, <- list_fmap_compose.
      apply list_fmap_ext. intros k n _. unfold uuid_at. simpl.
      f_equal. lia. }
    split; [rewrite Hlog; simpl; by rewrite <- app_assoc|].
    split; [by rewrite Hvals|].
    rewrite Hcalls. simpl. lia.
Qed.

(** A run of [add_memory] calls with importances within 1..10 returns and
    appends one memory per call, in order, with the content, source and
    importance given; the memory of the k-th call has the k-th next value of
    the uuid source as its id, so the ids are pairwise distinct when the
    source does not repeat; one record per memory is logged. *)
Theorem add_memories_run
    (specs : list (string * string * Z)) (pa : PydanticAgent.t) (w : World.t) :
  Forall (λ spec : string * string * Z, 1 ≤ spec.2 ≤ 10) specs →
  ∃ new pa' w',
    add_memories specs (pa, w) = (Return tt, (pa', w'))
    ∧ pa' = grown pa [] [] new [] []
    ∧ (λ m, (Memory.content m, Memory.source m, Memory.importance m)) <$> new = specs
    ∧ Memory.id <$> new = uuid_at w <$> seq 0 (length specs)
    ∧ World.log_records w'
      = World.log_records w ++ ((λ m, "Added memory: " +:+ Memory.id m) <$> new)
    ∧ ((∀ a b, World.uuid4_values w a = World.uuid4_values w b → a = b) →
       NoDup (Memory.id <$> new)).
Proof.
  intros Hspecs.
  destruct (add_memories_run_aux specs Hspecs pa w)
    as (new & pa' & w' & Hrun & Hpa' & Hnew & Hids & Hlog & _).
  exists new, pa', w'. do 5 (split; [done|]).
  intros Hinj. rewrite Hids.
  apply NoDup_fmap_2_strong; [|apply NoDup_seq].
  intros a b _ _ Hab. unfold uuid_at in Hab. apply Hinj in Hab. lia.
Qed.

Lemma add_memories_run_two :
  Forall (λ spec : string * string * Z, 1 ≤ spec.2 ≤ 10)
    [("Python is a language.", "agent_knowledge_base", 7);
     ("The user prefers concise answers.", "user_preference_analysis", 6)]
  ∧ ∃ new pa' w',
      add_memories
        [("Python is a language.", "agent_knowledge_base", 7);
         ("The user prefers concise answers.", "user_preference_analysis", 6)]
        (pydantic_agent0, world1)
      = (Return tt, (pa', w'))
      ∧ pa' = grown pydantic_agent0 [] [] new [] []
      ∧ (λ m, (Memory.content m, Memory.source m, Memory.importance m)) <$> new
        = [("Python is a language.", "agent_knowledge_base", 7);
           ("The user prefers concise answers.", "user_preference_analysis", 6)]
      ∧ Memory.id <$> new
        = uuid_at world1
          <$> seq 0 (length
                [("Python is a language.", "agent_knowledge_base", 7);
                 ("The user prefers concise answers.", "user_preference_analysis", 6)])
      ∧ World.log_records w'
        = World.log_records world1
          ++ ((λ m, "Added memory: " +:+ Memory.id m) <$> new)
      ∧ ((∀ a b, World.uuid4_values world1 a = World.uuid4_values world1 b → a = b) →
         NoDup (Memory.id <$> new)).
Proof.
  assert (Forall (λ spec : string * string * Z, 1 ≤ spec.2 ≤ 10)
            [("Python is a language.", "agent_knowledge_base", 7);
             ("The user prefers concise answers.", "user_preference_analysis", 6)])
    as Hspecs.
  { repeat (constructor; [simpl; lia|]). constructor. }
  split; [exact Hspecs|].
  exact (add_memories_run _ pydantic_agent0 world1 Hspecs).
Defined.

(** [Memory(...)] returns exactly when the importance is left out or lies
    within 1..10; the memory it returns carries the arguments, importance 1
    when it was left out, no [last_accessed], and an importance within 1..10;
    and when it raises, the error is the one of the field [importance]: the
    check of [validate_importance] is never the one that fails. *)
Theorem Memory_new_outcome
    (id content source : string) (importance : option Z) (w : World.t) :
  (returns (Memory.new id content source importance w).1
   ↔ ∀ i, importance = Some i → 1 ≤ i ≤ 10)
  ∧ (∀ memory,
       (Memory.new id content source importance w).1 = Return memory →
       memory = Memory.mk id content source (default 1 importance) (clock w 0) None
       ∧ 1 ≤ Memory.importance memory ≤ 10)
  ∧ (∀ model loc kind,
       (Memory.new id content source importance w).1
       = Raise (ValidationError model loc kind) →
       loc = ["importance"] ∧ ∀ msg, kind ≠ value_error msg).
Proof.
  destruct importance as [i|].
  - destruct (decide (1 ≤ i ≤ 10)) as [Hin|Hout].
    + rewrite (Memory_new_in_range id content source i w Hin). simpl.
      split; [|split].
      * split; [|intros _; by eexists]. intros _ j Hj. by simplify_eq.
      * intros memory Hm. simplify_eq. done.
      * intros model loc kind Hraise. discriminate Hraise.
    + unfold Memory.new, Memory.check_importance_field.
      destruct (decide (i < 1)) as [Hlt|Hge].
      * rewrite (bool_decide_eq_true_2 (i < 1)) by done. simpl.
        split; [|split].
        -- split; [intros [m Hm]; discriminate Hm|]. intros Hall.
           destruct Hout. by apply Hall.
        -- intros memory Hm. discriminate Hm.
        -- intros model loc kind Hraise. simplify_eq. done.
      * rewrite (bool_decide_eq_false_2 (i < 1)) by done.
        rewrite (bool_decide_eq_true_2 (i > 10)) by lia. simpl.
        split; [|split].
        -- split; [intros [m Hm]; discriminate Hm|]. intros Hall.
           destruct Hout. by apply Hall.
        -- intros memory Hm. discriminate Hm.
        -- intros model loc kind Hraise. simplify_eq. done.
  - split; [|split].
    + split; [intros _ i Hi; discriminate Hi | intros _; by eexists].
    + intros memory Hm. simpl in Hm. simplify_eq. simpl. split; [done|lia].
    + intros model loc kind Hraise. discriminate Hraise.
Qed.

Lemma add_thoughts_run_aux contents :
  ∀ a w,
  ∃ new,
    add_thoughts contents (a, w)
    = (Return tt,
       (Agent.mk (Agent.id a) (Agent.name a) (Agent.description a)
          (Agent.available_tools a) (Agent.messages a) (Agent.memories a)
          (Agent.thoughts a ++ new) (Agent.actions a),
        tick (length contents) w))
    ∧ new = imap (λ k content, AgentThought.mk content (clock w k)) contents.
Proof.
  induction contents as [|content contents IH]; intros a w.
  - exists []. rewrite app_nil_r. split; [|done]. by destruct a, w.
  - destruct (IH (Agent.append_thoughts (AgentThought.mk content (clock w 0)) a)
                (tick 1 w)) as (new & Hrun & Hnew).
    exists (AgentThought.mk content (clock w 0) :: new). split.
    + unfold add_thoughts in *. simpl.
      erewrite bind_Return by apply add_thought_eq.
      change (World.now w).2 with (tick 1 w).
      change (World.now_values w (World.now_calls w)) with (clock w 0).
      rewrite Hrun, tick_tick. simpl. rewrite <- app_assoc. simpl.
      do 3 f_equal. lia.
    + rewrite Hnew. simpl. f_equal. apply imap_ext. intros k c _.
      unfold clock. simpl. do 2 f_equal. lia.
Qed.

(** A run of [add_thought] calls returns and appends one thought per call,
    in order, the k-th stamped with the k-th next reading of the clock;
    nothing else in the agent changes and the clock is read once per call. *)
Theorem add_thoughts_run (contents : list string) (a : Agent.t) (w : World.t) :
  ∃ a',
    add_thoughts contents (a, w) = (Return tt, (a', tick (length contents) w))
    ∧ Agent.thoughts a'
      = Agent.thoughts a
        ++ imap (λ k content, AgentThought.mk content (clock w k)) contents
    ∧ Agent.messages a' = Agent.messages a
    ∧ Agent.memories a' = Agent.memories a
    ∧ Agent.actions a' = Agent.actions a
    ∧ Agent.available_tools a' = Agent.available_tools a.
Proof.
  destruct (add_thoughts_run_aux contents a w) as (new & Hrun & ->).
  eexists. split; [exact Hrun|]. done.
Qed.

(** [record_action] takes any action as it is: a run of [record_action]
    calls returns and appends the actions in order, unchanged (their
    timestamps are those of their construction), without reading the clock
    or changing anything else. *)
Theorem record_actions_run (actions : list AgentAction.t) (a : Agent.t) (w : World.t) :
  record_actions actions (a, w)
  = (Return tt,
     (Agent.mk (Agent.id a) (Agent.name a) (Agent.description a)
        (Agent.available_tools a) (Agent.messages a) (Agent.memories a)
        (Agent.thoughts a) (Agent.actions a ++ actions),
      w)).
Proof.
  revert a. induction actions as [|action actions IH]; intros a.
  - rewrite app_nil_r. by destruct a.
  - unfold record_actions in *. simpl.
    erewrite bind_Return by reflexivity.
    rewrite IH. simpl. by rewrite <- app_assoc.
Qed.

(** *** The constructor *)

(** When the constructor returns, the key it kept is the [openai_api_key]
    argument if that is a non-empty string and the environment variable
    otherwise (an empty argument counts as none), it is non-empty, and the
    client was built with the same key; the agent takes the next value of
    the uuid source as its id; the uuid source and the clock were each
    consulted once and nothing else in the world changed. *)
Theorem init_key_precedence
    (name description system_prompt : string) (key : option string)
    (w w' : World.t) (pa : PydanticAgent.t) :
  PydanticAgent.__init__ name description system_prompt key w = (Return pa, w') →
  PydanticAgent.api_key pa
  = (if truthy_opt key then key else World.environ w !! "OPENAI_API_KEY")
  ∧ truthy_opt (PydanticAgent.api_key pa) = true
  ∧ PydanticAgent.openai_api_key (PydanticAgent.llm pa) = PydanticAgent.api_key pa
  ∧ Agent.id (PydanticAgent.agent_model pa) = uuid_at w 0
  ∧ Agent.name (PydanticAgent.agent_model pa) = name
  ∧ Agent.description (PydanticAgent.agent_model pa) = description
  ∧ w' = World.mk (World.environ w) (World.uuid4_values w) (S (World.uuid4_calls w))
           (World.now_values w) (S (World.now_calls w)) (World.log_records w).
Proof.
  destruct (truthy_opt (effective_key key w)) eqn:Hkey.
  - rewrite (init_with_key _ _ _ _ _ Hkey). intros Hinit.
    injection Hinit as <- <-. simpl. done.
  - rewrite (init_without_key _ _ _ _ _ Hkey). intros Hinit. discriminate Hinit.
Qed.

Lemma init_key_precedence_empty_argument :
  PydanticAgent.__init__ "A" "B" "sys" (Some "") world0
  = (Return pydantic_agent0, world1)
  ∧ PydanticAgent.api_key pydantic_agent0
    = (if truthy_opt (Some "") then Some ""
       else World.environ world0 !! "OPENAI_API_KEY")
  ∧ truthy_opt (PydanticAgent.api_key pydantic_agent0) = true
  ∧ PydanticAgent.openai_api_key (PydanticAgent.llm pydantic_agent0)
    = PydanticAgent.api_key pydantic_agent0
  ∧ Agent.id (PydanticAgent.agent_model pydantic_agent0) = uuid_at world0 0
  ∧ Agent.name (PydanticAgent.agent_model pydantic_agent0) = "A"
  ∧ Agent.description (PydanticAgent.agent_model pydantic_agent0) = "B"
  ∧ world1
    = World.mk (World.environ world0) (World.uuid4_values world0)
        (S (World.uuid4_calls world0)) (World.now_values world0)
        (S (World.now_calls world0)) (World.log_records world0).
Proof.
  assert (PydanticAgent.__init__ "A" "B" "sys" (Some "") world0
          = (Return pydantic_agent0, world1)) as Hinit.
  { rewrite init_with_key by reflexivity. reflexivity. }
  split; [exact Hinit|].
  exact (init_key_precedence "A" "B" "sys" (Some "") world0 world1 pydantic_agent0
           Hinit).
Defined.

(** *** Prompts *)

(** [_get_prompt_messages] yields one mapping per message, in order, with
    exactly the keys "role" and "content" and the role and content of that
    message; the timestamp is left out. *)
Theorem get_prompt_messages_mirror (pa : PydanticAgent.t) :
  length (Turn._get_prompt_messages pa)
  = length (Agent.messages (PydanticAgent.agent_model pa))
  ∧ ∀ i msg,
      Agent.messages (PydanticAgent.agent_model pa) !! i = Some msg →
      ∃ d : gmap string string,
        Turn._get_prompt_messages pa !! i = Some d
        ∧ d !! "role" = Some (Message.role msg)
        ∧ d !! "content" = Some (Message.content msg)
        ∧ dom d = {[ "role"; "content" ]}.
Proof.
  unfold Turn._get_prompt_messages. rewrite foldl_snoc, app_nil_l. split.
  - apply length_fmap.
  - intros i msg Hmsg. exists (Turn.prompt_message msg).
    split; [by rewrite list_lookup_fmap, Hmsg|].
    unfold Turn.prompt_message. split; [by rewrite lookup_insert_eq|].
    split.
    + rewrite lookup_insert_ne by done. by rewrite lookup_singleton_eq.
    + by rewrite dom_insert_L, dom_singleton_L.
Qed.

(** [_format_tools_for_prompt] answers "No tools available." exactly when
    the agent has no tool: with at least one tool the text begins with the
    description of the first. *)
Theorem format_tools_no_tools_iff (ext : External.t) (pa : PydanticAgent.t) :
  Turn._format_tools_for_prompt ext pa = "No tools available."
  ↔ Agent.available_tools (PydanticAgent.agent_model pa) = [].
Proof.
  unfold Turn._format_tools_for_prompt.
  destruct (Agent.available_tools (PydanticAgent.agent_model pa))
    as [|tool tools]; [done|].
  split; [|intros Hnil; discriminate Hnil].
  rewrite foldl_snoc, app_nil_l, fmap_cons. unfold Turn.tool_description at 1.
  intros Hjoin. exfalso. simpl in Hjoin.
  destruct (Turn.tool_description ext <$> tools); discriminate Hjoin.
Qed.

(** *** The mock search *)

Lemma range_lookup (n : Z) (i : nat) :
  Z.of_nat i < n → range n !! i = Some (Z.of_nat i).
Proof.
  intros Hi. unfold range. rewrite list_lookup_fmap, lookup_seq_lt by lia. done.
Qed.

Lemma range_NoDup (n : Z) : NoDup (range n).
Proof.
  unfold range. apply NoDup_fmap_2; [apply Nat2Z.inj'|apply NoDup_seq].
Qed.

Lemma search_result_url query i :
  tools.search_result query i !! "url"
  = Some ("https://example.com/result" +:+ str_of_int (i + 1)).
Proof.
  unfold tools.search_result. rewrite lookup_insert_ne by done.
  by rewrite lookup_insert_eq.
Qed.

(** The results of [web_search] are numbered from 1: the result at position
    [i] (from 0) of the list has "Result i+1 for 'query'" as title,
    ".../result i+1" as url and a snippet naming the query. *)
Theorem web_search_entries (query : string) (num_results : Z) (i : nat) :
  Z.of_nat i < Z.min num_results 10 →
  ∃ d : gmap string string,
    tools.web_search query (Some num_results) !! i = Some d
    ∧ d !! "title"
      = Some ("Result " +:+ str_of_int (Z.of_nat i + 1) +:+ " for '" +:+ query +:+ "'")
    ∧ d !! "url"
      = Some ("https://example.com/result" +:+ str_of_int (Z.of_nat i + 1))
    ∧ d !! "snippet"
      = Some ("This is a snippet of information related to " +:+ query +:+ "...")
    ∧ dom d = {[ "title"; "url"; "snippet" ]}.
Proof.
  intros Hi. exists (tools.search_result query (Z.of_nat i)). split.
  - unfold tools.web_search. simpl.
    by rewrite list_lookup_fmap, (range_lookup _ _ Hi).
  - split; [unfold tools.search_result; by rewrite lookup_insert_eq|].
    split; [apply search_result_url|]. split.
    + unfold tools.search_result. rewrite !lookup_insert_ne by done.
      by rewrite lookup_singleton_eq.
    + unfold tools.search_result.
      rewrite !dom_insert_L, dom_singleton_L. set_solver.
Qed.

Lemma web_search_entries_third :
  Z.of_nat 2 < Z.min 5 10
  ∧ ∃ d : gmap string string,
      tools.web_search "rocq" (Some 5) !! 2%nat = Some d
      ∧ d !! "title"
        = Some ("Result " +:+ str_of_int (Z.of_nat 2 + 1) +:+ " for '" +:+ "rocq" +:+ "'")
      ∧ d !! "url"
        = Some ("https://example.com/result" +:+ str_of_int (Z.of_nat 2 + 1))
      ∧ d !! "snippet"
        = Some ("This is a snippet of information related to " +:+ "rocq" +:+ "...")
      ∧ dom d = {[ "title"; "url"; "snippet" ]}.
Proof.
  split; [simpl; lia|].
  apply (web_search_entries "rocq" 5 2). simpl. lia.
Defined.

(** No two results of one [web_search] call have the same url, whatever the
    query and the number of results asked for. *)
Theorem web_search_urls_distinct (query : string) (num_results : option Z) :
  NoDup ((λ d : gmap string string, d !! "url")
           <$> tools.web_search query num_results).
Proof.
  unfold tools.web_search. rewrite <- list_fmap_compose.
  apply NoDup_fmap_2_strong; [|apply range_NoDup].
  intros a b _ _ Hab. simpl in Hab. rewrite !search_result_url in Hab.
  injection Hab as Hab. apply (inj _) in Hab.
  unfold str_of_int in Hab. apply (inj _) in Hab. lia.
Qed.
